(** * Canvas edges of the topology graph (core/gui/graph/edges.py)

    A shallow embedding of [edges.py]: the edge token, the geometry of a
    link, and the [Edge] / [CanvasEdge] methods that draw, move, label,
    classify and delete a link on the drawing surface.

    Conventions of the embedding.
    - Python [float] coordinates are idealised as real numbers ([R]); node
      handles and canvas item ids are Python [int]s ([Z]).
    - The edge object and the canvas it points to are mutable; a method is a
      function from the pair of both (a [world]) to an [outcome], which is
      either a returned value or a raised exception, in both cases together
      with the world as the method left it.
    - The Tk canvas is an external widget.  Its primitives are modelled as
      Tk documents them: an item id that names no item matches nothing (no
      error, empty coordinate list), ids are handed out by a counter and
      never reused, and a [None] id truncates the Tcl command, so that
      [coords(None, ...)] is a Tcl error while [delete(None)] deletes
      nothing.  Fonts, justification, smoothing and event bindings have no
      effect on the state that is modelled and are left out. *)

From Stdlib Require Import Reals Lra ZArith String.
From stdpp Require Import gmap strings list pretty sorting.

Local Open Scope Z_scope.
Local Open Scope string_scope.

(** ** Module constants *)

Definition TEXT_DISTANCE : R := (30 / 100)%R.
Definition EDGE_WIDTH : R := 3%R.
Definition EDGE_COLOR : string := "#ff0000".
Definition WIRELESS_WIDTH : R := (15 / 10)%R.
Definition WIRELESS_COLOR : string := "#009933".

(** Canvas tags ([core.gui.graph.tags]); only their distinctness matters. *)
Definition TAG_EDGE : string := "edge".
Definition TAG_WIRELESS_EDGE : string := "wireless".
Definition TAG_LINK_INFO : string := "linkinfo".
Definition TAG_THROUGHPUT : string := "throughput".

(** ** Exceptions and outcomes *)

Inductive exn : Set :=
| ValueError      (* tuple unpacking with the wrong number of values *)
| KeyError        (* missing dictionary key *)
| AttributeError  (* attribute access on None *)
| TclError.       (* malformed canvas command *)

Inductive outcome (W A : Type) : Type :=
| Ok (a : A) (w : W)
| Raise (e : exn) (w : W).
Arguments Ok {W A} a w.
Arguments Raise {W A} e w.

Definition final {W A} (o : outcome W A) : W :=
  match o with Ok _ w => w | Raise _ w => w end.

Definition raised {W A} (o : outcome W A) : option exn :=
  match o with Ok _ _ => None | Raise e _ => Some e end.

(** ** Link data consumed for the labels *)

Record Interface := {
  ip4 : string; ip4mask : Z;
  ip6 : string; ip6mask : Z
}.

Record Link := {
  interface_one : option Interface;
  interface_two : option Interface
}.

Definition newline : string := String (Ascii.ascii_of_nat 10) EmptyString.

Definition interface_label (interface : Interface) : string :=
  let label := "" in
  let label :=
    if decide (ip4 interface = "") then label
    else ip4 interface ++ "/" ++ pretty (ip4mask interface) in
  let label :=
    if decide (ip6 interface = "") then label
    else label ++ newline ++ ip6 interface ++ "/" ++ pretty (ip6mask interface) in
  label.

(** ** Edge token *)

(** Python's [sorted] on a list of integers. *)
Definition sorted (l : list Z) : list Z := merge_sort Z.le l.

Definition create_edge_token (src dst : Z) : list Z := sorted [src; dst].

(** ** Geometry *)

Local Open Scope R_scope.

(** [math.atan2 y x] on reals (there is no signed zero: the quadrant is
    decided by the signs of [x] and [y], and [atan2 0 0 = 0]). *)
Definition atan2 (y x : R) : R :=
  if Rlt_dec 0 x then atan (y / x)
  else if Rlt_dec x 0 then
    if Rle_dec 0 y then atan (y / x) + PI else atan (y / x) - PI
  else if Rlt_dec 0 y then PI / 2
  else if Rlt_dec y 0 then - (PI / 2)
  else 0.

(** [Edge._get_midpoint], with [self.arc] passed as [arc]. *)
Definition _get_midpoint (arc : R) (src_pos dst_pos : R * R) : R * R :=
  let '(src_x, src_y) := src_pos in
  let '(dst_x, dst_y) := dst_pos in
  let t := atan2 (dst_y - src_y) (dst_x - src_y) in
  let x_mp := (src_x + dst_x) / 2 + arc * sin t in
  let y_mp := (src_y + dst_y) / 2 - arc * cos t in
  (x_mp, y_mp).

(** ** Throughput text: [f"{throughput:.3f} kbps"] *)

(** Nearest integer, ties to the even one. *)
Definition round_half_even (y : R) : Z :=
  let n := Zfloor y in
  let f := y - IZR n in
  if Rlt_dec f (1 / 2) then n
  else if Rlt_dec (1 / 2) f then (n + 1)%Z
  else if Z.even n then n else (n + 1)%Z.

Definition pad3 (n : Z) : string :=
  if (n <? 10)%Z then "00" ++ pretty n
  else if (n <? 100)%Z then "0" ++ pretty n
  else pretty n.

(** The [.3f] presentation: sign, integer part, three decimals. *)
Definition format_3f (x : R) : string :=
  let n := round_half_even (1000 * Rabs x) in
  (if Rlt_dec x 0 then "-" else "")
    ++ pretty (n / 1000)%Z ++ "." ++ pad3 (n mod 1000)%Z.

Definition throughput_text (throughput : R) : string :=
  format_3f throughput ++ " kbps".

(** ** The drawing surface *)

(** A canvas primitive: a line, a text or a node image. *)
Record item := Item {
  item_tag : string;
  item_coords : list R;
  item_text : string;
  item_fill : string;
  item_width : R;
  item_hidden : bool
}.

Definition item_set_coords (cs : list R) (it : item) : item :=
  Item (item_tag it) cs (item_text it) (item_fill it) (item_width it)
       (item_hidden it).
Definition item_set_text (t : string) (it : item) : item :=
  Item (item_tag it) (item_coords it) t (item_fill it) (item_width it)
       (item_hidden it).
Definition item_set_style (fill : string) (width : R) (it : item) : item :=
  Item (item_tag it) (item_coords it) (item_text it) fill width
       (item_hidden it).
Definition item_set_hidden (it : item) : item :=
  Item (item_tag it) (item_coords it) (item_text it) (item_fill it)
       (item_width it) true.

Section EdgeModel.

(** The node types of the emulation API and the classifier
    [NodeUtils.is_wireless_node] live outside this file. *)
Context {NodeType : Type}.
Variable is_wireless_node : NodeType -> bool.

(** Modelled from the spec: [CanvasNode.add_antenna] is not in this file; the
    spec says an antenna marker is requested on the node, so a node counts
    the markers requested on it. *)
Record CanvasNode := {
  core_node_type : NodeType;
  antennas : nat
}.

Definition add_antenna (n : CanvasNode) : CanvasNode :=
  {| core_node_type := core_node_type n; antennas := S (antennas n) |}.

(** [CanvasGraph]: the Tk items with their stacking order (bottom first) and
    id counter, and the attributes of the graph that edges read or write. *)
Record CanvasGraph := {
  items : gmap Z item;
  stacking : list Z;
  next_id : Z;
  nodes : gmap Z CanvasNode;
  wireless_network : gmap Z (gset Z);
  throughput_threshold : R;
  throughput_color : string;
  throughput_width : R;
  app_scale : R
}.

Definition with_items (f : gmap Z item -> gmap Z item) (c : CanvasGraph) :=
  {| items := f (items c); stacking := stacking c; next_id := next_id c;
     nodes := nodes c; wireless_network := wireless_network c;
     throughput_threshold := throughput_threshold c;
     throughput_color := throughput_color c;
     throughput_width := throughput_width c; app_scale := app_scale c |}.

Definition with_stacking (f : list Z -> list Z) (c : CanvasGraph) :=
  {| items := items c; stacking := f (stacking c); next_id := next_id c;
     nodes := nodes c; wireless_network := wireless_network c;
     throughput_threshold := throughput_threshold c;
     throughput_color := throughput_color c;
     throughput_width := throughput_width c; app_scale := app_scale c |}.

Definition with_next_id (n : Z) (c : CanvasGraph) :=
  {| items := items c; stacking := stacking c; next_id := n;
     nodes := nodes c; wireless_network := wireless_network c;
     throughput_threshold := throughput_threshold c;
     throughput_color := throughput_color c;
     throughput_width := throughput_width c; app_scale := app_scale c |}.

Definition with_nodes (f : gmap Z CanvasNode -> gmap Z CanvasNode)
    (c : CanvasGraph) :=
  {| items := items c; stacking := stacking c; next_id := next_id c;
     nodes := f (nodes c); wireless_network := wireless_network c;
     throughput_threshold := throughput_threshold c;
     throughput_color := throughput_color c;
     throughput_width := throughput_width c; app_scale := app_scale c |}.

Definition with_wireless_network
    (f : gmap Z (gset Z) -> gmap Z (gset Z)) (c : CanvasGraph) :=
  {| items := items c; stacking := stacking c; next_id := next_id c;
     nodes := nodes c; wireless_network := f (wireless_network c);
     throughput_threshold := throughput_threshold c;
     throughput_color := throughput_color c;
     throughput_width := throughput_width c; app_scale := app_scale c |}.

(** ** The edge object ([Edge] with the attributes [CanvasEdge] adds) *)

(** The attributes [src_interface], [dst_interface], [asymmetric_link] and
    [throughput] are set to [None] by the constructor and neither read nor
    written by any method of this file; the record leaves them out. *)

Record edge := {
  edge_id : option Z;          (* self.id *)
  src : Z;
  dst : option Z;
  arc : R;
  token : option (list Z);
  color : string;
  width : R;
  text_src : option Z;
  text_dst : option Z;
  text_middle : option Z;
  link : option Link
}.

Definition set_edge_id (v : option Z) (e : edge) : edge :=
  {| edge_id := v; src := src e; dst := dst e; arc := arc e;
     token := token e; color := color e; width := width e;
     text_src := text_src e; text_dst := text_dst e;
     text_middle := text_middle e; link := link e |}.
Definition set_dst (v : option Z) (e : edge) : edge :=
  {| edge_id := edge_id e; src := src e; dst := v; arc := arc e;
     token := token e; color := color e; width := width e;
     text_src := text_src e; text_dst := text_dst e;
     text_middle := text_middle e; link := link e |}.
Definition set_token (v : option (list Z)) (e : edge) : edge :=
  {| edge_id := edge_id e; src := src e; dst := dst e; arc := arc e;
     token := v; color := color e; width := width e;
     text_src := text_src e; text_dst := text_dst e;
     text_middle := text_middle e; link := link e |}.
Definition set_text_src (v : option Z) (e : edge) : edge :=
  {| edge_id := edge_id e; src := src e; dst := dst e; arc := arc e;
     token := token e; color := color e; width := width e;
     text_src := v; text_dst := text_dst e;
     text_middle := text_middle e; link := link e |}.
Definition set_text_dst (v : option Z) (e : edge) : edge :=
  {| edge_id := edge_id e; src := src e; dst := dst e; arc := arc e;
     token := token e; color := color e; width := width e;
     text_src := text_src e; text_dst := v;
     text_middle := text_middle e; link := link e |}.
Definition set_text_middle (v : option Z) (e : edge) : edge :=
  {| edge_id := edge_id e; src := src e; dst := dst e; arc := arc e;
     token := token e; color := color e; width := width e;
     text_src := text_src e; text_dst := text_dst e;
     text_middle := v; link := link e |}.
Definition set_link_field (v : option Link) (e : edge) : edge :=
  {| edge_id := edge_id e; src := src e; dst := dst e; arc := arc e;
     token := token e; color := color e; width := width e;
     text_src := text_src e; text_dst := text_dst e;
     text_middle := text_middle e; link := v |}.

(** ** Methods as state transformers that may raise *)

Record world := World { self : edge; canvas : CanvasGraph }.

Definition M (A : Type) : Type := world -> outcome world A.

Definition ret {A} (a : A) : M A := fun w => Ok a w.
Definition raise {A} (e : exn) : M A := fun w => Raise e w.
Definition bind {A B} (m : M A) (k : A -> M B) : M B :=
  fun w => match m w with
           | Ok a w' => k a w'
           | Raise e w' => Raise e w'
           end.

Notation "'let*' x := m 'in' k" := (bind m (fun x => k))
  (at level 10, x name, m at level 200, k at level 200, only parsing).
Notation "'let*' ' pat := m 'in' k" :=
  (bind m (fun x => match x with pat => k end))
  (at level 10, pat pattern, m at level 200, k at level 200, only parsing).
Notation "m ;;; k" := (bind m (fun _ => k))
  (at level 100, k at level 200, right associativity, only parsing).

Definition get_self : M edge := fun w => Ok (self w) w.
Definition get_canvas : M CanvasGraph := fun w => Ok (canvas w) w.
Definition modify_self (f : edge -> edge) : M unit :=
  fun w => Ok tt (World (f (self w)) (canvas w)).
Definition modify_canvas (f : CanvasGraph -> CanvasGraph) : M unit :=
  fun w => Ok tt (World (self w) (f (canvas w))).

(** Tuple unpacking of a coordinate list. *)
Definition unpack2 (l : list R) : M (R * R) :=
  match l with
  | [a; b] => ret (a, b)
  | _ => raise ValueError
  end.
Definition unpack4 (l : list R) : M (R * R * R * R) :=
  match l with
  | [a; b; c; d] => ret (a, b, c, d)
  | _ => raise ValueError
  end.
Definition unpack6 (l : list R) : M (R * R * R * R * R * R) :=
  match l with
  | [a; b; c; d; e; f] => ret (a, b, c, d, e, f)
  | _ => raise ValueError
  end.

(** *** Canvas primitives *)

(** [canvas.coords(i)] *)
Definition canvas_coords (i : option Z) : M (list R) :=
  match i with
  | None => raise TclError
  | Some n =>
      let* c := get_canvas in
      ret (match items c !! n with Some it => item_coords it | None => [] end)
  end.

(** [canvas.coords(i, *cs)] *)
Definition canvas_set_coords (i : option Z) (cs : list R) : M unit :=
  match i with
  | None => raise TclError
  | Some n => modify_canvas (with_items (alter (item_set_coords cs) n))
  end.

(** [canvas.itemconfig(i, ...)], the options given as an item update; an id
    that is [None] names no item. *)
Definition canvas_itemconfig (i : option Z) (f : item -> item) : M unit :=
  match i with
  | None => ret tt
  | Some n => modify_canvas (with_items (alter f n))
  end.

(** [canvas.delete(i)] *)
Definition remove_item (n : Z) (c : CanvasGraph) : CanvasGraph :=
  with_stacking (filter (fun k => k ≠ n)) (with_items (delete n) c).

Definition canvas_delete (i : option Z) : M unit :=
  match i with
  | None => ret tt
  | Some n => modify_canvas (remove_item n)
  end.

(** [canvas.create_line(...)] and [canvas.create_text(...)]: a fresh id. *)
Definition canvas_create (it : item) : M Z :=
  let* c := get_canvas in
  let n := next_id c in
  modify_canvas (fun c =>
    with_next_id (n + 1)%Z
      (with_stacking (fun s => (s ++ [n])%list) (with_items (insert n it) c))) ;;;
  ret n.

(** [canvas.tag_raise(i)] *)
Definition canvas_tag_raise (i : option Z) : M unit :=
  match i with
  | None => ret tt
  | Some n =>
      modify_canvas (with_stacking (fun s =>
        if decide (n ∈ s) then (filter (fun k => k ≠ n) s ++ [n])%list else s))
  end.

(** *** class Edge *)

(** [Edge.__init__]; the attributes that [CanvasEdge.__init__] adds start as
    [None] as well. *)
Definition Edge_init (src : Z) (dst : option Z) : edge :=
  {| edge_id := None; src := src; dst := dst; arc := 0; token := None;
     color := EDGE_COLOR; width := EDGE_WIDTH;
     text_src := None; text_dst := None; text_middle := None;
     link := None |}.

Definition Edge_create_token (src dst : Z) : list Z := sorted [src; dst].

(** [Edge.draw]; [tag] is the class attribute [self.tag]. *)
Definition Edge_draw (tag : string) (src_pos dst_pos : R * R) : M unit :=
  let* e := get_self in
  let* c := get_canvas in
  let mid_pos := _get_midpoint (arc e) src_pos dst_pos in
  let* n := canvas_create
               (Item tag
                     [src_pos.1; src_pos.2; mid_pos.1; mid_pos.2;
                      dst_pos.1; dst_pos.2]
                     "" (color e) (width e * app_scale c) false) in
  modify_self (set_edge_id (Some n)).

Definition Edge_move_dst (x y : R) : M unit :=
  let* e := get_self in
  let dst_pos := (x, y) in
  let* cs := canvas_coords (edge_id e) in
  let* '(src_x, src_y, _, _, _, _) := unpack6 cs in
  let src_pos := (src_x, src_y) in
  let mid_pos := _get_midpoint (arc e) src_pos dst_pos in
  canvas_set_coords (edge_id e)
    [src_pos.1; src_pos.2; mid_pos.1; mid_pos.2; dst_pos.1; dst_pos.2].

Definition Edge_move_src (x y : R) : M unit :=
  let* e := get_self in
  let src_pos := (x, y) in
  let* cs := canvas_coords (edge_id e) in
  let* '(_, _, _, _, dst_x, dst_y) := unpack6 cs in
  let dst_pos := (dst_x, dst_y) in
  let mid_pos := _get_midpoint (arc e) src_pos dst_pos in
  canvas_set_coords (edge_id e)
    [src_pos.1; src_pos.2; mid_pos.1; mid_pos.2; dst_pos.1; dst_pos.2].

Definition Edge_move_node (node_id : Z) (x y : R) : M unit :=
  let* e := get_self in
  if decide (src e = node_id) then Edge_move_src x y
  else Edge_move_dst x y.

Definition Edge_delete : M unit :=
  let* e := get_self in
  canvas_delete (edge_id e).

(** *** class CanvasWirelessEdge *)

Definition CanvasWirelessEdge_init (c : CanvasGraph) (src dst : Z)
    (src_pos dst_pos : R * R) (token : list Z) : outcome world unit :=
  let e := Edge_init src (Some dst) in
  let e :=
    {| edge_id := edge_id e; src := src; dst := Some dst; arc := arc e;
       token := Some token; color := WIRELESS_COLOR; width := WIRELESS_WIDTH;
       text_src := None; text_dst := None; text_middle := None;
       link := None |} in
  Edge_draw TAG_WIRELESS_EDGE src_pos dst_pos (World e c).

(** *** class CanvasEdge *)

Definition CanvasEdge_init (c : CanvasGraph) (src : Z)
    (src_pos dst_pos : R * R) : outcome world unit :=
  Edge_draw TAG_EDGE src_pos dst_pos (World (Edge_init src None) c).

Definition CanvasEdge_get_coordinates : M (R * R * R * R) :=
  let* e := get_self in
  let* cs := canvas_coords (edge_id e) in
  let* '(x1, y1, _, _, x2, y2) := unpack6 cs in
  let v1 := x2 - x1 in
  let v2 := y2 - y1 in
  let ux := TEXT_DISTANCE * v1 in
  let uy := TEXT_DISTANCE * v2 in
  let x1 := x1 + ux in
  let y1 := y1 + uy in
  let x2 := x2 - ux in
  let y2 := y2 - uy in
  ret (x1, y1, x2, y2).

Definition CanvasEdge_get_midpoint : M (R * R) :=
  let* e := get_self in
  let* cs := canvas_coords (edge_id e) in
  let* '(x1, y1, x2, y2) := unpack4 cs in
  let x := (x1 + x2) / 2 in
  let y := (y1 + y2) / 2 in
  ret (x, y).

Definition CanvasEdge_create_labels : M (option string * option string) :=
  let* e := get_self in
  match link e with
  | None => raise AttributeError
  | Some l =>
      let label_one := interface_label <$> interface_one l in
      let label_two := interface_label <$> interface_two l in
      ret (label_one, label_two)
  end.

(** A text option that is [None] is not passed on to Tk. *)
Definition text_item (tag : string) (x y : R) (text : option string) : item :=
  Item tag [x; y] (default "" text) "" 0 false.

Definition CanvasEdge_draw_labels : M unit :=
  let* '(x1, y1, x2, y2) := CanvasEdge_get_coordinates in
  let* '(label_one, label_two) := CanvasEdge_create_labels in
  let* n1 := canvas_create (text_item TAG_LINK_INFO x1 y1 label_one) in
  modify_self (set_text_src (Some n1)) ;;;
  let* n2 := canvas_create (text_item TAG_LINK_INFO x2 y2 label_two) in
  modify_self (set_text_dst (Some n2)).

Definition CanvasEdge_set_link (l : Link) : M unit :=
  modify_self (set_link_field (Some l)) ;;;
  CanvasEdge_draw_labels.

Definition CanvasEdge_update_labels : M unit :=
  let* '(x1, y1, x2, y2) := CanvasEdge_get_coordinates in
  let* e := get_self in
  canvas_set_coords (text_src e) [x1; y1] ;;;
  canvas_set_coords (text_dst e) [x2; y2] ;;;
  match text_middle e with
  | Some _ =>
      let* '(x, y) := CanvasEdge_get_midpoint in
      canvas_set_coords (text_middle e) [x; y]
  | None => ret tt
  end.

Definition CanvasEdge_move_node (node_id : Z) (x y : R) : M unit :=
  Edge_move_node node_id x y ;;;
  CanvasEdge_update_labels.

Definition CanvasEdge_set_throughput (throughput : R) : M unit :=
  let throughput := (1 / 1000) * throughput in
  let value := throughput_text throughput in
  let* e := get_self in
  match text_middle e with
  | None =>
      let* '(x, y) := CanvasEdge_get_midpoint in
      let* n := canvas_create (text_item TAG_THROUGHPUT x y (Some value)) in
      modify_self (set_text_middle (Some n))
  | Some _ => canvas_itemconfig (text_middle e) (item_set_text value)
  end ;;;
  let* c := get_canvas in
  let* e := get_self in
  let '(color, width) :=
    if Rgt_dec throughput (throughput_threshold c)
    then (throughput_color c, throughput_width c)
    else (EDGE_COLOR, EDGE_WIDTH) in
  canvas_itemconfig (edge_id e) (item_set_style color width).

(** [wlan_network[hub]] is created empty when missing, then [peer] is added
    to it. *)
Definition wlan_register (hub peer : Z) (wlan_network : gmap Z (gset Z))
    : gmap Z (gset Z) :=
  let wlan_network :=
    if decide (is_Some (wlan_network !! hub)) then wlan_network
    else <[hub := ∅]> wlan_network in
  alter (fun s => s ∪ {[peer]}) hub wlan_network.

(** [self.canvas.nodes[k]] *)
Definition nodes_getitem (k : option Z) : M (Z * CanvasNode) :=
  let* c := get_canvas in
  match k with
  | None => raise KeyError
  | Some n =>
      match nodes c !! n with
      | Some node => ret (n, node)
      | None => raise KeyError
      end
  end.

Definition CanvasEdge_is_wireless : M bool :=
  let* e := get_self in
  let* '(s, src_node) := nodes_getitem (Some (src e)) in
  let* '(d, dst_node) := nodes_getitem (dst e) in
  let src_node_type := core_node_type src_node in
  let dst_node_type := core_node_type dst_node in
  let is_src_wireless := is_wireless_node src_node_type in
  let is_dst_wireless := is_wireless_node dst_node_type in
  (if is_src_wireless && negb is_dst_wireless
   then modify_canvas (with_wireless_network (wlan_register s d))
   else if negb is_src_wireless && is_dst_wireless
   then modify_canvas (with_wireless_network (wlan_register d s))
   else ret tt) ;;;
  ret (is_src_wireless || is_dst_wireless).

Definition CanvasEdge__check_antenna : M unit :=
  let* e := get_self in
  let* '(s, src_node) := nodes_getitem (Some (src e)) in
  let* '(d, dst_node) := nodes_getitem (dst e) in
  let src_node_type := core_node_type src_node in
  let dst_node_type := core_node_type dst_node in
  let is_src_wireless := is_wireless_node src_node_type in
  let is_dst_wireless := is_wireless_node dst_node_type in
  if is_src_wireless || is_dst_wireless then
    if is_src_wireless && negb is_dst_wireless
    then modify_canvas (with_nodes (alter add_antenna d))
    else if negb is_src_wireless && is_dst_wireless
    then modify_canvas (with_nodes (alter add_antenna s))
    else modify_canvas (with_nodes (alter add_antenna s))
  else ret tt.

Definition CanvasEdge_check_wireless : M unit :=
  let* b := CanvasEdge_is_wireless in
  if b then
    let* e := get_self in
    canvas_itemconfig (edge_id e) item_set_hidden ;;;
    CanvasEdge__check_antenna
  else ret tt.

Definition CanvasEdge_complete (dst : Z) : M unit :=
  modify_self (set_dst (Some dst)) ;;;
  let* e := get_self in
  modify_self (set_token (Some (create_edge_token (src e) dst))) ;;;
  let* cs := canvas_coords (Some dst) in
  let* '(x, y) := unpack2 cs in
  Edge_move_dst x y ;;;
  CanvasEdge_check_wireless ;;;
  canvas_tag_raise (Some (src e)) ;;;
  canvas_tag_raise (Some dst).

Definition CanvasEdge_delete : M unit :=
  Edge_delete ;;;
  let* e := get_self in
  canvas_delete (text_src e) ;;;
  canvas_delete (text_dst e) ;;;
  canvas_delete (text_middle e).

Definition CanvasEdge_reset : M unit :=
  let* e := get_self in
  canvas_delete (text_middle e) ;;;
  modify_self (set_text_middle None) ;;;
  canvas_itemconfig (edge_id e) (item_set_style EDGE_COLOR EDGE_WIDTH).

(** [canvas.itemconfig(i, text=t)]: Tk is not given an option whose value is
    [None], so the text of the item stays as it is. *)
Definition set_text_option (t : option string) (it : item) : item :=
  match t with
  | Some s => item_set_text s it
  | None => it
  end.

Definition CanvasEdge_redraw : M unit :=
  let* '(label_one, label_two) := CanvasEdge_create_labels in
  let* e := get_self in
  canvas_itemconfig (text_src e) (set_text_option label_one) ;;;
  canvas_itemconfig (text_dst e) (set_text_option label_two).

(** *** Observations used in the statements *)

(** The item an id refers to, if any. *)
Definition item_of (i : option Z) (c : CanvasGraph) : option item :=
  match i with
  | Some n => items c !! n
  | None => None
  end.

(** The six coordinates [edges.py] gives a line from [src_pos] to [dst_pos]
    of an edge with arc [arc]. *)
Definition curve_points (arc : R) (src_pos dst_pos : R * R) : list R :=
  let mid_pos := _get_midpoint arc src_pos dst_pos in
  [src_pos.1; src_pos.2; mid_pos.1; mid_pos.2; dst_pos.1; dst_pos.2].

(** The canvas after [update_labels] has placed the two endpoint labels. *)
Definition labels_placed (a b : Z) (p1 p2 : list R) (c : CanvasGraph) :=
  with_items (alter (item_set_coords p2) b)
    (with_items (alter (item_set_coords p1) a) c).

(** The two ends of the line after [move_node(node_id, x, y)] on a line
    from [(x1, y1)] to [(x2, y2)]. *)
Definition moved_ends (e : edge) (node_id : Z) (x y x1 y1 x2 y2 : R)
    : (R * R) * (R * R) :=
  if decide (src e = node_id) then ((x, y), (x2, y2)) else ((x1, y1), (x, y)).


(** What [is_wireless] does to [canvas.wireless_network], by the answers of
    the classifier for the source and the destination node. *)
Definition registration (is_src_wireless is_dst_wireless : bool) (s d : Z)
    (wlan_network : gmap Z (gset Z)) : gmap Z (gset Z) :=
  if is_src_wireless && negb is_dst_wireless
  then wlan_register s d wlan_network
  else if negb is_src_wireless && is_dst_wireless
  then wlan_register d s wlan_network
  else wlan_network.

(** The canvas after [canvas.delete(i)]. *)
Definition delete_ref (i : option Z) (c : CanvasGraph) : CanvasGraph :=
  match i with
  | Some n => remove_item n c
  | None => c
  end.

(** A reference dangles when it holds the id of an item that is not on the
    canvas. *)
Definition dangling (i : option Z) (c : CanvasGraph) : bool :=
  match i with
  | Some n => bool_decide (items c !! n = None)
  | None => false
  end.

(** The four item references an edge holds. *)
Definition references (e : edge) : list (option Z) :=
  [edge_id e; text_src e; text_dst e; text_middle e].

(** [Edge.move_node] called for each [(node_id, x, y)] of a list, in order. *)
Fixpoint Edge_move_nodes (ms : list (Z * R * R)) : M unit :=
  match ms with
  | [] => ret tt
  | (node_id, x, y) :: ms' => Edge_move_node node_id x y ;;; Edge_move_nodes ms'
  end.

(** The stacking order after [canvas.tag_raise(n)]. *)
Definition raise_in (n : Z) (s : list Z) : list Z :=
  if decide (n ∈ s) then (filter (fun k => k ≠ n) s ++ [n])%list else s.

(** The line of the edge is an item with six coordinates. *)
Definition line_drawn (w : world) : Prop :=
  ∃ l it x1 y1 mx my x2 y2,
    edge_id (self w) = Some l
    ∧ items (canvas w) !! l = Some it
    ∧ item_coords it = [x1; y1; mx; my; x2; y2].

(** The canvas after [draw_labels] has created the two label items. *)
Definition labels_drawn (t1 t2 : item) (c : CanvasGraph) : CanvasGraph :=
  with_next_id (next_id c + 1 + 1)%Z
    (with_stacking (fun s => (s ++ [(next_id c + 1)%Z])%list)
       (with_items (insert (next_id c + 1)%Z t2)
          (with_next_id (next_id c + 1)%Z
             (with_stacking (fun s => (s ++ [next_id c])%list)
                (with_items (insert (next_id c) t1) c))))).

(** Calling a method [n] times in a row. *)
Fixpoint iterate {A} (n : nat) (m : M A) : M unit :=
  match n with
  | O => ret tt
  | S n' => m ;;; iterate n' m
  end.

End EdgeModel.

(** ** A small topology used for concrete runs

    Node types are booleans here, and a node is wireless when its type is
    [true].  The canvas holds the images of five nodes, whose handles are the
    ids of their images: 1, 2 and 4 are wired nodes, 3 and 5 are wireless. *)

Definition demo_is_wireless (node_type : bool) : bool := node_type.

Definition demo_node_image (x y : R) : item :=
  Item "node" [x; y] "" "" 0 false.

Definition demo_node (node_type : bool) : @CanvasNode bool :=
  {| core_node_type := node_type; antennas := O |}.

Definition demo_canvas0 : @CanvasGraph bool :=
  {| items :=
       list_to_map
         [(1%Z, demo_node_image 0 0); (2%Z, demo_node_image 10 0);
          (3%Z, demo_node_image 0 10); (4%Z, demo_node_image 10 10);
          (5%Z, demo_node_image 20 10)];
     stacking := [1; 2; 3; 4; 5]%Z;
     next_id := 10%Z;
     nodes :=
       list_to_map
         [(1%Z, demo_node false); (2%Z, demo_node false);
          (3%Z, demo_node true); (4%Z, demo_node false);
          (5%Z, demo_node true)];
     wireless_network := ∅;
     throughput_threshold := 250;
     throughput_color := "#00ff00";
     throughput_width := 6;
     app_scale := 1 |}.

(** A pending edge drawn from the node [src] at [src_pos] to the pointer at
    [(3, 4)]: the edge object and the canvas that [CanvasEdge(...)] leaves. *)
Definition demo_pending_edge (src : Z) (src_pos : R * R) : edge :=
  self (final (CanvasEdge_init demo_canvas0 src src_pos (3, 4))).
Definition demo_pending_canvas (src : Z) (src_pos : R * R)
    : @CanvasGraph bool :=
  canvas (final (CanvasEdge_init demo_canvas0 src src_pos (3, 4))).
Definition demo_pending (src : Z) (src_pos : R * R) : @world bool :=
  World (demo_pending_edge src src_pos) (demo_pending_canvas src src_pos).

(** The edge from node 1 completed at node 2. *)
Definition demo_edge : edge :=
  self (final (CanvasEdge_complete demo_is_wireless 2
                 (demo_pending 1 (0, 0)))).
Definition demo_canvas : @CanvasGraph bool :=
  canvas (final (CanvasEdge_complete demo_is_wireless 2
                   (demo_pending 1 (0, 0)))).
Definition demo_world : @world bool := World demo_edge demo_canvas.

Definition demo_link : Link :=
  {| interface_one :=
       Some {| ip4 := "10.0.0.1"; ip4mask := 24; ip6 := ""; ip6mask := 0 |};
     interface_two :=
       Some {| ip4 := "10.0.0.2"; ip4mask := 24; ip6 := ""; ip6mask := 0 |}
  |}.

(** The same edge once its link is bound and its endpoint labels drawn. *)
Definition demo_linked_world : @world bool :=
  final (CanvasEdge_set_link demo_link demo_world).

(** The linked edge with a throughput label installed on it: a text item
    at the middle [(5, 0)] of the line, referenced by [text_middle]. *)
Definition demo_labelled_edge : edge :=
  set_text_middle (Some 13%Z) (self demo_linked_world).
Definition demo_labelled_canvas : @CanvasGraph bool :=
  canvas (final (canvas_create
                   (text_item TAG_THROUGHPUT 5 0 (Some "0.000 kbps"))
                   demo_linked_world)).
Definition demo_labelled_world : @world bool :=
  World demo_labelled_edge demo_labelled_canvas.

(** The edge from the wireless node 3 completed at the wired node 4. *)
Definition demo_wlan_edge : edge :=
  self (final (CanvasEdge_complete demo_is_wireless 4
                 (demo_pending 3 (0, 10)))).
Definition demo_wlan_canvas : @CanvasGraph bool :=
  canvas (final (CanvasEdge_complete demo_is_wireless 4
                   (demo_pending 3 (0, 10)))).

(** The linked edge and its canvas, taken apart. *)
Definition demo_linked_edge : edge := self demo_linked_world.
Definition demo_linked_canvas : @CanvasGraph bool := canvas demo_linked_world.

(** * Properties *)

(** ** The edge token *)

Lemma sorted_pair (a b : Z) :
  sorted [a; b] = if decide (a ≤ b)%Z then [a; b] else [b; a].
Proof.
  unfold sorted. cbn. destruct (decide (a ≤ b)%Z); reflexivity.
Qed.

Lemma create_edge_token_min_max (a b : Z) :
  create_edge_token a b = [Z.min a b; Z.max a b].
Proof.
  unfold create_edge_token. rewrite sorted_pair.
  destruct (decide (a ≤ b)%Z).
  - rewrite Z.min_l, Z.max_r by lia. reflexivity.
  - rewrite Z.min_r, Z.max_l by lia. reflexivity.
Qed.

Lemma sorted_perm_invariant (l1 l2 : list Z) :
  l1 ≡ₚ l2 -> sorted l1 = sorted l2.
Proof.
  intros Hp. unfold sorted.
  apply (Sorted_unique Z.le).
  - apply Sorted_merge_sort. intros x y. lia.
  - apply Sorted_merge_sort. intros x y. lia.
  - rewrite !merge_sort_Permutation. exact Hp.
Qed.

(** C9: the token of a pair of handles does not depend on their order, for
    the module function [create_edge_token] and for the class method
    [Edge.create_token]; the token of a self-loop [(a, a)] is the pair
    [a, a].  Both are total functions of the two handles. *)
Theorem create_edge_token_commutative (a b : Z) :
  create_edge_token a b = create_edge_token b a
  ∧ Edge_create_token a b = Edge_create_token b a
  ∧ create_edge_token a a = [a; a]
  ∧ Edge_create_token a a = create_edge_token a a.
Proof.
  assert (Hs : sorted [a; b] = sorted [b; a])
    by (apply sorted_perm_invariant, perm_swap).
  repeat split.
  - exact Hs.
  - exact Hs.
  - rewrite create_edge_token_min_max, Z.min_id, Z.max_id. reflexivity.
Qed.

(** ** The curved midpoint *)

Local Open Scope R_scope.

Lemma atan2_pos_x (y x : R) : 0 < x -> atan2 y x = atan (y / x).
Proof.
  intros Hx. unfold atan2. destruct (Rlt_dec 0 x); [reflexivity | lra].
Qed.

Lemma atan2_vertical_up (y : R) : 0 < y -> atan2 y 0 = PI / 2.
Proof.
  intros Hy. unfold atan2.
  destruct (Rlt_dec 0 0); [lra |].
  destruct (Rlt_dec 0 y); [reflexivity | lra].
Qed.

(** With no arc the control point is the midpoint of the two positions. *)
Lemma _get_midpoint_arc_0 (src_x src_y dst_x dst_y : R) :
  _get_midpoint 0 (src_x, src_y) (dst_x, dst_y)
  = ((src_x + dst_x) / 2, (src_y + dst_y) / 2).
Proof.
  unfold _get_midpoint. f_equal; lra.
Qed.

(** The control point lies at distance [|arc|] from the midpoint. *)
Lemma _get_midpoint_offset_norm (arc src_x src_y dst_x dst_y : R) :
  let mp := _get_midpoint arc (src_x, src_y) (dst_x, dst_y) in
  let ox := mp.1 - (src_x + dst_x) / 2 in
  let oy := mp.2 - (src_y + dst_y) / 2 in
  sqrt (ox * ox + oy * oy) = Rabs arc.
Proof.
  cbn. set (t := atan2 _ _).
  replace (_ * _ + _ * _) with (arc² * ((sin t)² + (cos t)²))
    by (unfold Rsqr; ring).
  rewrite sin2_cos2, Rmult_1_r. apply sqrt_Rsqr_abs.
Qed.

(** The angle is taken from [dst_x - src_y], so the offset is at right
    angles to the vector [(dst_x - src_y, dst_y - src_y)]. *)
Lemma _get_midpoint_offset_direction (arc src_x src_y dst_x dst_y : R) :
  0 < dst_x - src_y ->
  let mp := _get_midpoint arc (src_x, src_y) (dst_x, dst_y) in
  let ox := mp.1 - (src_x + dst_x) / 2 in
  let oy := mp.2 - (src_y + dst_y) / 2 in
  ox * (dst_x - src_y) + oy * (dst_y - src_y) = 0.
Proof.
  intros Hx. cbn. rewrite atan2_pos_x by exact Hx.
  set (q := (dst_y - src_y) / (dst_x - src_y)).
  assert (Hc : cos (atan q) ≠ 0).
  { apply Rgt_not_eq, cos_gt_0; pose proof (atan_bound q); lra. }
  assert (Hq : sin (atan q) = q * cos (atan q)).
  { rewrite <- (tan_atan q) at 2. unfold tan. field. exact Hc. }
  replace (dst_y - src_y) with (q * (dst_x - src_y))
    by (unfold q; field; lra).
  rewrite Hq. ring.
Qed.

(** C3 (evaluation at the failing input): with [arc = 1], from [(0, 1)] to
    [(1, 2)], the control point is [(3/2, 3/2)]; its offset [(1, 0)] from the
    midpoint [(1/2, 3/2)] has inner product [1] with the source-to-destination
    vector [(1, 1)], so it is not perpendicular to it. *)
Theorem _get_midpoint_not_perpendicular :
  let src_pos := (0, 1) in
  let dst_pos := (1, 2) in
  let mp := _get_midpoint 1 src_pos dst_pos in
  let ox := mp.1 - (src_pos.1 + dst_pos.1) / 2 in
  let oy := mp.2 - (src_pos.2 + dst_pos.2) / 2 in
  mp = (3 / 2, 3 / 2)
  ∧ ox * (dst_pos.1 - src_pos.1) + oy * (dst_pos.2 - src_pos.2) = 1.
Proof.
  cbn.
  replace (1 - 1) with 0 by lra.
  replace (2 - 1) with 1 by lra.
  rewrite atan2_vertical_up by lra.
  rewrite sin_PI2, cos_PI2.
  split; [f_equal; lra | lra].
Qed.

(** ** Moving an end of the line *)

(** Unfolds the plumbing of a method applied to a world. *)
Ltac run :=
  repeat (progress
    (unfold bind, ret, raise, get_self, get_canvas, modify_self,
       modify_canvas, unpack2, unpack4, unpack6, canvas_coords,
       canvas_set_coords, canvas_itemconfig, canvas_delete, canvas_create,
       canvas_tag_raise;
     cbn [self canvas items fst snd])).

Section MoveProperties.
Context {NodeType : Type}.
Implicit Types (e : edge) (c : @CanvasGraph NodeType) (it : item).

Lemma Edge_move_dst_spec e c l it x1 y1 mx my x2 y2 x y :
  edge_id e = Some l ->
  items c !! l = Some it ->
  item_coords it = [x1; y1; mx; my; x2; y2] ->
  Edge_move_dst x y (World e c)
  = Ok tt (World e (with_items
             (alter (item_set_coords (curve_points (arc e) (x1, y1) (x, y))) l)
             c)).
Proof.
  intros Hid Hit Hcs. unfold Edge_move_dst. run.
  rewrite Hid. run. rewrite Hit, Hcs. reflexivity.
Qed.

Lemma Edge_move_src_spec e c l it x1 y1 mx my x2 y2 x y :
  edge_id e = Some l ->
  items c !! l = Some it ->
  item_coords it = [x1; y1; mx; my; x2; y2] ->
  Edge_move_src x y (World e c)
  = Ok tt (World e (with_items
             (alter (item_set_coords (curve_points (arc e) (x, y) (x2, y2))) l)
             c)).
Proof.
  intros Hid Hit Hcs. unfold Edge_move_src. run.
  rewrite Hid. run. rewrite Hit, Hcs. reflexivity.
Qed.

Lemma item_of_alter_eq c (f : item -> item) l :
  item_of (Some l) (with_items (alter f l) c) = f <$> item_of (Some l) c.
Proof. cbn. apply lookup_alter_eq. Qed.

(** ** Labels follow the line *)

Lemma CanvasEdge_get_coordinates_spec e c l it x1 y1 mx my x2 y2 :
  edge_id e = Some l ->
  items c !! l = Some it ->
  item_coords it = [x1; y1; mx; my; x2; y2] ->
  CanvasEdge_get_coordinates (World e c)
  = Ok (x1 + TEXT_DISTANCE * (x2 - x1), y1 + TEXT_DISTANCE * (y2 - y1),
        x2 - TEXT_DISTANCE * (x2 - x1), y2 - TEXT_DISTANCE * (y2 - y1))
       (World e c).
Proof.
  intros Hid Hit Hcs. unfold CanvasEdge_get_coordinates. run.
  rewrite Hid. run. rewrite Hit, Hcs. reflexivity.
Qed.

(** [get_midpoint] unpacks four values; a line drawn by [Edge.draw] and moved
    by [move_src] / [move_dst] has six. *)
Lemma CanvasEdge_get_midpoint_six_coords e c l it x1 y1 mx my x2 y2 :
  edge_id e = Some l ->
  items c !! l = Some it ->
  item_coords it = [x1; y1; mx; my; x2; y2] ->
  CanvasEdge_get_midpoint (World e c) = Raise ValueError (World e c).
Proof.
  intros Hid Hit Hcs. unfold CanvasEdge_get_midpoint. run.
  rewrite Hid. run. rewrite Hit, Hcs. reflexivity.
Qed.

Lemma CanvasEdge_get_midpoint_four_coords e c l it x1 y1 x2 y2 :
  edge_id e = Some l ->
  items c !! l = Some it ->
  item_coords it = [x1; y1; x2; y2] ->
  CanvasEdge_get_midpoint (World e c)
  = Ok ((x1 + x2) / 2, (y1 + y2) / 2) (World e c).
Proof.
  intros Hid Hit Hcs. unfold CanvasEdge_get_midpoint. run.
  rewrite Hid. run. rewrite Hit, Hcs. reflexivity.
Qed.


Lemma CanvasEdge_update_labels_spec e c l a b it x1 y1 mx my x2 y2 :
  edge_id e = Some l -> text_src e = Some a -> text_dst e = Some b ->
  l ≠ a -> l ≠ b ->
  items c !! l = Some it ->
  item_coords it = [x1; y1; mx; my; x2; y2] ->
  let c' :=
    labels_placed a b
      [x1 + TEXT_DISTANCE * (x2 - x1); y1 + TEXT_DISTANCE * (y2 - y1)]
      [x2 - TEXT_DISTANCE * (x2 - x1); y2 - TEXT_DISTANCE * (y2 - y1)] c in
  CanvasEdge_update_labels (World e c)
  = match text_middle e with
    | None => Ok tt (World e c')
    | Some _ => Raise ValueError (World e c')
    end.
Proof.
  intros Hid Ha Hb Hla Hlb Hit Hcs c'. unfold CanvasEdge_update_labels.
  unfold bind at 1.
  rewrite (CanvasEdge_get_coordinates_spec _ _ _ _ _ _ _ _ _ _ Hid Hit Hcs).
  run. rewrite Ha, Hb. run.
  destruct (text_middle e) as [m |]; [| reflexivity].
  erewrite CanvasEdge_get_midpoint_six_coords; [reflexivity | exact Hid | | exact Hcs].
  cbn. rewrite !lookup_alter_ne by congruence. exact Hit.
Qed.


Lemma Edge_move_node_spec e c node_id x y l it x1 y1 mx my x2 y2 :
  edge_id e = Some l ->
  items c !! l = Some it ->
  item_coords it = [x1; y1; mx; my; x2; y2] ->
  let '(p, q) := moved_ends e node_id x y x1 y1 x2 y2 in
  Edge_move_node node_id x y (World e c)
  = Ok tt (World e (with_items
             (alter (item_set_coords (curve_points (arc e) p q)) l) c)).
Proof.
  intros Hid Hit Hcs. unfold moved_ends, Edge_move_node. run.
  destruct (decide (src e = node_id)).
  - eapply Edge_move_src_spec; eassumption.
  - eapply Edge_move_dst_spec; eassumption.
Qed.

(** C2 (as amended): on a drawn edge, [move_node] with a handle other than
    the source handle, be it the destination handle or the handle of no
    endpoint at all, raises nothing and moves the destination end of the line
    to [(x, y)]: the line keeps its source end and runs through the control
    point computed for the new ends. *)
Theorem Edge_move_node_other_handle_moves_dst
    e c node_id x y l it x1 y1 mx my x2 y2 :
  src e ≠ node_id ->
  edge_id e = Some l ->
  items c !! l = Some it ->
  item_coords it = [x1; y1; mx; my; x2; y2] ->
  ∃ c',
    Edge_move_node node_id x y (World e c) = Ok tt (World e c')
    ∧ item_coords <$> item_of (edge_id e) c'
      = Some (curve_points (arc e) (x1, y1) (x, y)).
Proof.
  intros Hne Hid Hit Hcs. unfold Edge_move_node. run.
  destruct (decide (src e = node_id)) as [Heq | _]; [contradiction |].
  rewrite (Edge_move_dst_spec _ _ _ _ _ _ _ _ _ _ _ _ Hid Hit Hcs).
  eexists. split; [reflexivity |].
  rewrite Hid, item_of_alter_eq. cbn. rewrite Hit. reflexivity.
Qed.

Lemma CanvasEdge_move_node_spec e c node_id x y l a b it x1 y1 mx my x2 y2 :
  edge_id e = Some l -> text_src e = Some a -> text_dst e = Some b ->
  l ≠ a -> l ≠ b ->
  items c !! l = Some it ->
  item_coords it = [x1; y1; mx; my; x2; y2] ->
  let '(p, q) := moved_ends e node_id x y x1 y1 x2 y2 in
  let c' :=
    labels_placed a b
      [p.1 + TEXT_DISTANCE * (q.1 - p.1); p.2 + TEXT_DISTANCE * (q.2 - p.2)]
      [q.1 - TEXT_DISTANCE * (q.1 - p.1); q.2 - TEXT_DISTANCE * (q.2 - p.2)]
      (with_items (alter (item_set_coords (curve_points (arc e) p q)) l) c) in
  CanvasEdge_move_node node_id x y (World e c)
  = match text_middle e with
    | None => Ok tt (World e c')
    | Some _ => Raise ValueError (World e c')
    end.
Proof.
  intros Hid Ha Hb Hla Hlb Hit Hcs.
  pose proof (Edge_move_node_spec e c node_id x y l it _ _ _ _ _ _
                Hid Hit Hcs) as Hmove.
  destruct (moved_ends e node_id x y x1 y1 x2 y2) as [[px py] [qx qy]].
  unfold CanvasEdge_move_node, bind at 1. rewrite Hmove.
  eapply (CanvasEdge_update_labels_spec e _ l a b); try eassumption.
  - cbn. rewrite lookup_alter_eq, Hit. reflexivity.
  - reflexivity.
Qed.

(** The endpoint labels of an edge without throughput label sit at the
    anchors of the line as [move_node] left it. *)
Lemma CanvasEdge_move_node_endpoint_labels
    e c node_id x y l a b it x1 y1 mx my x2 y2 :
  edge_id e = Some l -> text_src e = Some a -> text_dst e = Some b ->
  text_middle e = None ->
  NoDup [l; a; b] ->
  items c !! l = Some it ->
  item_coords it = [x1; y1; mx; my; x2; y2] ->
  is_Some (items c !! a) -> is_Some (items c !! b) ->
  ∃ c' X1 Y1 MX MY X2 Y2,
    CanvasEdge_move_node node_id x y (World e c) = Ok tt (World e c')
    ∧ item_coords <$> items c' !! l = Some [X1; Y1; MX; MY; X2; Y2]
    ∧ item_coords <$> items c' !! a
      = Some [X1 + TEXT_DISTANCE * (X2 - X1); Y1 + TEXT_DISTANCE * (Y2 - Y1)]
    ∧ item_coords <$> items c' !! b
      = Some [X2 - TEXT_DISTANCE * (X2 - X1); Y2 - TEXT_DISTANCE * (Y2 - Y1)].
Proof.
  intros Hid Ha Hb Hm Hnd Hit Hcs [ia Hia] [ib Hib].
  apply NoDup_cons in Hnd as [Hl Hnd]. apply NoDup_cons in Hnd as [Hab _].
  assert (l ≠ a ∧ l ≠ b ∧ a ≠ b) as (Hla & Hlb & Hneq) by set_solver.
  pose proof (CanvasEdge_move_node_spec e c node_id x y l a b it _ _ _ _ _ _
                Hid Ha Hb Hla Hlb Hit Hcs) as Hrun.
  destruct (moved_ends e node_id x y x1 y1 x2 y2) as [[px py] [qx qy]].
  rewrite Hm in Hrun. cbn [fst snd] in Hrun.
  eexists _, px, py, _, _, qx, qy. split; [exact Hrun |].
  unfold labels_placed. cbn [items with_items].
  repeat split.
  - rewrite !lookup_alter_ne by congruence.
    rewrite lookup_alter_eq, Hit. reflexivity.
  - rewrite lookup_alter_ne by congruence.
    rewrite lookup_alter_eq, lookup_alter_ne by congruence.
    rewrite Hia. reflexivity.
  - rewrite lookup_alter_eq, !lookup_alter_ne by congruence.
    rewrite Hib. reflexivity.
Qed.

(** ** Throughput *)

Lemma CanvasEdge_set_throughput_no_label e c l it x1 y1 mx my x2 y2 t :
  edge_id e = Some l ->
  text_middle e = None ->
  items c !! l = Some it ->
  item_coords it = [x1; y1; mx; my; x2; y2] ->
  CanvasEdge_set_throughput t (World e c) = Raise ValueError (World e c).
Proof.
  intros Hid Hm Hit Hcs. unfold CanvasEdge_set_throughput. run.
  rewrite Hm. unfold bind.
  rewrite (CanvasEdge_get_midpoint_six_coords _ _ _ _ _ _ _ _ _ _ Hid Hit Hcs).
  reflexivity.
Qed.



Lemma CanvasEdge_reset_spec e c :
  ∃ c',
    CanvasEdge_reset (World e c) = Ok tt (World (set_text_middle None e) c')
    ∧ item_of (text_middle e) c' = None
    ∧ ∀ l it,
        edge_id e = Some l -> items c !! l = Some it ->
        text_middle e ≠ Some l ->
        items c' !! l = Some (item_set_style EDGE_COLOR EDGE_WIDTH it).
Proof.
  unfold CanvasEdge_reset. run.
  destruct (text_middle e) as [m |], (edge_id e) as [l |]; run;
    (eexists; split; [reflexivity |]); cbn; split; try reflexivity.
  - destruct (decide (l = m)) as [-> | Hne].
    + rewrite lookup_alter_eq, lookup_delete_eq. reflexivity.
    + rewrite lookup_alter_ne, lookup_delete_eq by congruence. reflexivity.
  - intros l' it [= <-] Hit Hne.
    rewrite lookup_alter_eq, lookup_delete_ne, Hit by congruence. reflexivity.
  - apply lookup_delete_eq.
  - intros l' it [=].
  - intros l' it [= <-] Hit _. rewrite lookup_alter_eq, Hit. reflexivity.
  - intros l' it [=].
Qed.

End MoveProperties.

(** ** The throughput text *)

Lemma round_half_even_IZR (z : Z) : round_half_even (IZR z) = z.
Proof.
  unfold round_half_even. rewrite ZfloorZ.
  destruct (Rlt_dec (IZR z - IZR z) (1 / 2)); [reflexivity | lra].
Qed.

Lemma format_3f_thousandths (k : Z) :
  (0 ≤ k)%Z ->
  format_3f ((1 / 1000) * IZR k)
  = (pretty (k / 1000)%Z ++ "." ++ pad3 (k mod 1000)%Z)%string.
Proof.
  intros Hk. unfold format_3f.
  assert (H0 : 0 <= IZR k) by (apply IZR_le; exact Hk).
  replace (1000 * Rabs (1 / 1000 * IZR k)) with (IZR k)
    by (rewrite Rabs_pos_eq; lra).
  rewrite round_half_even_IZR.
  destruct (Rlt_dec (1 / 1000 * IZR k) 0); [lra | reflexivity].
Qed.

Lemma throughput_text_12345 :
  throughput_text ((1 / 1000) * 12345) = "12.345 kbps"%string.
Proof.
  unfold throughput_text. rewrite format_3f_thousandths by lia.
  vm_compute. reflexivity.
Qed.

Lemma throughput_text_0 :
  throughput_text ((1 / 1000) * 0) = "0.000 kbps"%string.
Proof.
  unfold throughput_text. rewrite format_3f_thousandths by lia.
  vm_compute. reflexivity.
Qed.

(** ** Wireless classification *)

Section WirelessProperties.
Context {NodeType : Type}.
Variable is_wireless_node : NodeType -> bool.
Implicit Types (e : edge) (c : @CanvasGraph NodeType) (it : item).
Implicit Types (net : gmap Z (gset Z)).

Lemma wlan_register_lookup hub peer net :
  wlan_register hub peer net !! hub
  = Some (default ∅ (net !! hub) ∪ {[peer]}).
Proof.
  unfold wlan_register. rewrite lookup_alter_eq.
  destruct (decide (is_Some (net !! hub))) as [[s Hs] | Hn].
  - rewrite Hs. reflexivity.
  - rewrite lookup_insert_eq.
    destruct (net !! hub) eqn:Hs; [exfalso; eauto | reflexivity].
Qed.

Lemma wlan_register_lookup_ne hub peer net k :
  k ≠ hub -> wlan_register hub peer net !! k = net !! k.
Proof.
  intros Hk. unfold wlan_register. rewrite lookup_alter_ne by congruence.
  destruct (decide (is_Some (net !! hub))); [reflexivity |].
  apply lookup_insert_ne. congruence.
Qed.

Lemma wlan_register_idemp hub peer net :
  wlan_register hub peer (wlan_register hub peer net)
  = wlan_register hub peer net.
Proof.
  apply map_eq. intros k. destruct (decide (k = hub)) as [-> | Hk].
  - rewrite !wlan_register_lookup. cbn. f_equal. rewrite <- (assoc_L (∪)), (idemp_L (∪)). reflexivity.
  - rewrite !wlan_register_lookup_ne by exact Hk. reflexivity.
Qed.

Lemma CanvasEdge_is_wireless_spec e c d ns nd :
  nodes c !! src e = Some ns -> dst e = Some d -> nodes c !! d = Some nd ->
  CanvasEdge_is_wireless is_wireless_node (World e c)
  = Ok (is_wireless_node (core_node_type ns)
        || is_wireless_node (core_node_type nd))
       (World e (with_wireless_network
                   (registration (is_wireless_node (core_node_type ns))
                      (is_wireless_node (core_node_type nd)) (src e) d) c)).
Proof.
  intros Hs Hd Hnd. unfold CanvasEdge_is_wireless, nodes_getitem, registration.
  run. rewrite Hs, Hd. run. rewrite Hnd. run.
  destruct (is_wireless_node (core_node_type ns)),
           (is_wireless_node (core_node_type nd)); cbn; try reflexivity.
  destruct c; reflexivity.
  destruct c; reflexivity.
Qed.

Lemma registration_idemp ws wd s d net :
  registration ws wd s d (registration ws wd s d net)
  = registration ws wd s d net.
Proof.
  unfold registration. destruct ws, wd; cbn;
    try reflexivity; apply wlan_register_idemp.
Qed.

Lemma iterate_is_wireless e c d ns nd n :
  nodes c !! src e = Some ns -> dst e = Some d -> nodes c !! d = Some nd ->
  iterate (S n) (CanvasEdge_is_wireless is_wireless_node) (World e c)
  = Ok tt (World e (with_wireless_network
                   (registration (is_wireless_node (core_node_type ns))
                      (is_wireless_node (core_node_type nd)) (src e) d) c)).
Proof.
  intros Hs Hd Hnd. revert c Hs Hnd. induction n as [| n IH]; intros c Hs Hnd.
  - cbn [iterate]. unfold bind at 1.
    rewrite (CanvasEdge_is_wireless_spec e c d ns nd Hs Hd Hnd). reflexivity.
  - change (iterate (S (S n)) ?m) with (bind m (fun _ => iterate (S n) m)).
    unfold bind at 1.
    rewrite (CanvasEdge_is_wireless_spec e c d ns nd Hs Hd Hnd).
    rewrite IH by exact Hs || exact Hnd.
    unfold with_wireless_network. cbn. rewrite registration_idemp.
    reflexivity.
Qed.

Lemma CanvasEdge__check_antenna_spec e c d ns nd :
  nodes c !! src e = Some ns -> dst e = Some d -> nodes c !! d = Some nd ->
  let ws := is_wireless_node (core_node_type ns) in
  let wd := is_wireless_node (core_node_type nd) in
  CanvasEdge__check_antenna is_wireless_node (World e c)
  = Ok tt (World e
       (if ws || wd
        then with_nodes (alter add_antenna (if ws && negb wd then d else src e)) c
        else c)).
Proof.
  intros Hs Hd Hnd. unfold CanvasEdge__check_antenna, nodes_getitem.
  run. rewrite Hs, Hd. run. rewrite Hnd. run.
  destruct (is_wireless_node (core_node_type ns)),
           (is_wireless_node (core_node_type nd)); reflexivity.
Qed.

Lemma CanvasEdge_check_wireless_spec e c l d ns nd :
  edge_id e = Some l ->
  nodes c !! src e = Some ns -> dst e = Some d -> nodes c !! d = Some nd ->
  let ws := is_wireless_node (core_node_type ns) in
  let wd := is_wireless_node (core_node_type nd) in
  let c1 := with_wireless_network (registration ws wd (src e) d) c in
  CanvasEdge_check_wireless is_wireless_node (World e c)
  = Ok tt (World e
       (if ws || wd
        then with_nodes
               (alter add_antenna (if ws && negb wd then d else src e))
               (with_items (alter item_set_hidden l) c1)
        else c1)).
Proof.
  intros Hid Hs Hd Hnd ws wd c1. unfold CanvasEdge_check_wireless.
  unfold bind at 1.
  rewrite (CanvasEdge_is_wireless_spec e c d ns nd Hs Hd Hnd).
  fold ws wd c1.
  destruct (ws || wd) eqn:Hw; [| reflexivity].
  run. rewrite Hid. run.
  rewrite (CanvasEdge__check_antenna_spec e _ d ns nd) by assumption.
  fold ws wd. rewrite Hw. reflexivity.
Qed.

Lemma CanvasEdge_complete_spec e c l it x1 y1 mx my x2 y2 d nit x y ns nd :
  edge_id e = Some l ->
  items c !! l = Some it ->
  item_coords it = [x1; y1; mx; my; x2; y2] ->
  items c !! d = Some nit ->
  item_coords nit = [x; y] ->
  nodes c !! src e = Some ns ->
  nodes c !! d = Some nd ->
  let ws := is_wireless_node (core_node_type ns) in
  let wd := is_wireless_node (core_node_type nd) in
  ∃ c',
    CanvasEdge_complete is_wireless_node d (World e c)
    = Ok tt (World (set_token (Some (create_edge_token (src e) d))
                      (set_dst (Some d) e)) c')
    ∧ items c'
      = (if ws || wd then alter item_set_hidden l else fun m => m)
          (alter (item_set_coords (curve_points (arc e) (x1, y1) (x, y))) l
             (items c))
    ∧ wireless_network c'
      = registration ws wd (src e) d (wireless_network c)
    ∧ nodes c'
      = (if ws || wd
         then alter add_antenna (if ws && negb wd then d else src e)
         else fun m => m) (nodes c).
Proof.
  intros Hid Hit Hcs Hnit Hncs Hs Hnd ws wd.
  unfold CanvasEdge_complete. run. rewrite Hnit, Hncs. run.
  set (e' := set_token _ _).
  rewrite (Edge_move_dst_spec e' c l it x1 y1 mx my x2 y2 x y Hid Hit Hcs).
  erewrite (CanvasEdge_check_wireless_spec e' _ l d ns nd);
    [| exact Hid | exact Hs | reflexivity | exact Hnd].
  fold ws wd. eexists. split; [reflexivity |].
  destruct (ws || wd); cbn; auto.
Qed.

(** C4: when [complete(d)] runs on a drawn edge whose two nodes are known to
    the canvas, it returns normally and classifies the edge as follows.
    - Only the source is wireless: [d] is added to the set of the source in
      [wireless_network], the line is hidden and one antenna is requested
      on the destination node, none on the source.
    - Only the destination is wireless: the source handle is added to the set
      of [d], the line is hidden and one antenna is requested on the source
      node, none on the destination.
    - Both are wireless: the line is hidden and one antenna is requested on
      the source node.
    - Neither is wireless: the line keeps its state, nothing is registered
      and no antenna is requested. *)
Theorem CanvasEdge_complete_wireless_policy
    e c l it x1 y1 mx my x2 y2 d nit x y ns nd :
  edge_id e = Some l ->
  items c !! l = Some it ->
  item_coords it = [x1; y1; mx; my; x2; y2] ->
  items c !! d = Some nit ->
  item_coords nit = [x; y] ->
  nodes c !! src e = Some ns ->
  nodes c !! d = Some nd ->
  let ws := is_wireless_node (core_node_type ns) in
  let wd := is_wireless_node (core_node_type nd) in
  ∃ e' c',
    CanvasEdge_complete is_wireless_node d (World e c) = Ok tt (World e' c')
    ∧ (ws = true ∧ wd = false ->
         wireless_network c' !! src e
         = Some (default ∅ (wireless_network c !! src e) ∪ {[d]})
         ∧ item_hidden <$> items c' !! l = Some true
         ∧ nodes c' = alter add_antenna d (nodes c)
         ∧ nodes c' !! src e = Some ns)
    ∧ (ws = false ∧ wd = true ->
         wireless_network c' !! d
         = Some (default ∅ (wireless_network c !! d) ∪ {[src e]})
         ∧ item_hidden <$> items c' !! l = Some true
         ∧ nodes c' = alter add_antenna (src e) (nodes c)
         ∧ nodes c' !! d = Some nd)
    ∧ (ws = true ∧ wd = true ->
         item_hidden <$> items c' !! l = Some true
         ∧ nodes c' = alter add_antenna (src e) (nodes c))
    ∧ (ws = false ∧ wd = false ->
         item_hidden <$> items c' !! l = Some (item_hidden it)
         ∧ wireless_network c' = wireless_network c
         ∧ nodes c' = nodes c).
Proof.
  intros Hid Hit Hcs Hnit Hncs Hs Hnd ws wd.
  destruct (CanvasEdge_complete_spec e c l it x1 y1 mx my x2 y2 d nit x y
              ns nd Hid Hit Hcs Hnit Hncs Hs Hnd)
    as (c' & Hrun & Hitems & Hnet & Hnodes).
  fold ws wd in Hitems, Hnet, Hnodes.
  exists (set_token (Some (create_edge_token (src e) d)) (set_dst (Some d) e)), c'.
  split; [exact Hrun |].
  assert (Hdiff : ws ≠ wd -> src e ≠ d).
  { intros Hw Heq. apply Hw. unfold ws, wd. rewrite Heq in Hs. congruence. }
  rewrite Hitems, Hnet, Hnodes. clearbody ws wd.
  split; [| split; [| split]]; intros [-> ->]; cbn; unfold registration; cbn.
  - split; [apply wlan_register_lookup |].
    split; [rewrite !lookup_alter_eq, Hit; reflexivity |].
    split; [reflexivity |].
    rewrite lookup_alter_ne; [exact Hs |].
    intros Heq. apply Hdiff; [discriminate | symmetry; exact Heq].
  - split; [apply wlan_register_lookup |].
    split; [rewrite !lookup_alter_eq, Hit; reflexivity |].
    split; [reflexivity |].
    rewrite lookup_alter_ne; [exact Hnd |].
    apply Hdiff. discriminate.
  - split; [| reflexivity].
    rewrite !lookup_alter_eq, Hit. reflexivity.
  - split; [| split; reflexivity].
    rewrite lookup_alter_eq, Hit. reflexivity.
Qed.

(** C8: classification is idempotent on [wireless_network].  On an edge with
    exactly one wireless end, calling [is_wireless] once or any larger
    number of times returns normally and leaves the same mapping, in which
    the set of the hub is its former set (empty when the hub was not yet a
    key) with the peer added. *)
Theorem CanvasEdge_is_wireless_idempotent e c d ns nd hub peer n :
  nodes c !! src e = Some ns -> dst e = Some d -> nodes c !! d = Some nd ->
  (is_wireless_node (core_node_type ns) = true
   ∧ is_wireless_node (core_node_type nd) = false
   ∧ hub = src e ∧ peer = d)
  ∨ (is_wireless_node (core_node_type ns) = false
     ∧ is_wireless_node (core_node_type nd) = true
     ∧ hub = d ∧ peer = src e) ->
  ∃ c1 cn,
    iterate 1 (CanvasEdge_is_wireless is_wireless_node) (World e c)
    = Ok tt (World e c1)
    ∧ iterate (S n) (CanvasEdge_is_wireless is_wireless_node) (World e c)
      = Ok tt (World e cn)
    ∧ cn = c1
    ∧ wireless_network cn !! hub
      = Some (default ∅ (wireless_network c !! hub) ∪ {[peer]})
    ∧ ∀ k, k ≠ hub -> wireless_network cn !! k = wireless_network c !! k.
Proof.
  intros Hs Hd Hnd Hcase.
  eexists _, _. split; [apply (iterate_is_wireless e c d ns nd 0 Hs Hd Hnd) |].
  split; [apply (iterate_is_wireless e c d ns nd n Hs Hd Hnd) |].
  split; [reflexivity |].
  cbn [wireless_network with_wireless_network]. unfold registration.
  destruct Hcase as [(-> & -> & -> & ->) | (-> & -> & -> & ->)]; cbn;
    (split; [apply wlan_register_lookup |]);
    intros k Hk; apply wlan_register_lookup_ne; exact Hk.
Qed.

(** C10: when the two ends of an edge are both wireless, or both wired,
    [complete] returns normally and leaves [wireless_network] as it was: no
    key is added and no set grows.  The mapping changes only for an edge
    with exactly one wireless end. *)
Theorem CanvasEdge_complete_both_wireless_no_registration
    e c l it x1 y1 mx my x2 y2 d nit x y ns nd :
  edge_id e = Some l ->
  items c !! l = Some it ->
  item_coords it = [x1; y1; mx; my; x2; y2] ->
  items c !! d = Some nit ->
  item_coords nit = [x; y] ->
  nodes c !! src e = Some ns ->
  nodes c !! d = Some nd ->
  is_wireless_node (core_node_type ns) = is_wireless_node (core_node_type nd) ->
  ∃ e' c',
    CanvasEdge_complete is_wireless_node d (World e c) = Ok tt (World e' c')
    ∧ wireless_network c' = wireless_network c.
Proof.
  intros Hid Hit Hcs Hnit Hncs Hs Hnd Hsame.
  destruct (CanvasEdge_complete_spec e c l it x1 y1 mx my x2 y2 d nit x y
              ns nd Hid Hit Hcs Hnit Hncs Hs Hnd)
    as (c' & Hrun & _ & Hnet & _).
  eexists _, c'. split; [exact Hrun |].
  rewrite Hnet, Hsame. unfold registration.
  destruct (is_wireless_node (core_node_type nd)); reflexivity.
Qed.

End WirelessProperties.

(** ** Deletion *)

Section DeleteProperties.
Context {NodeType : Type}.
Implicit Types (e : edge) (c : @CanvasGraph NodeType) (it : item).

Lemma CanvasEdge_delete_spec e c :
  CanvasEdge_delete (World e c)
  = Ok tt (World e (delete_ref (text_middle e) (delete_ref (text_dst e)
             (delete_ref (text_src e) (delete_ref (edge_id e) c))))).
Proof.
  unfold CanvasEdge_delete, Edge_delete. run.
  destruct (edge_id e); run; destruct (text_src e); run;
    destruct (text_dst e); run; destruct (text_middle e); reflexivity.
Qed.

Lemma items_delete_ref i c k :
  items (delete_ref i c) !! k
  = if decide (i = Some k) then None else items c !! k.
Proof.
  destruct i as [n |]; cbn.
  - rewrite lookup_delete. destruct (decide (n = k)) as [-> | Hn].
    + rewrite decide_True by reflexivity. reflexivity.
    + rewrite decide_False by congruence. reflexivity.
  - reflexivity.
Qed.

Lemma filter_ne_comm (n m : Z) (s : list Z) :
  filter (fun k => k ≠ n) (filter (fun k => k ≠ m) s)
  = filter (fun k => k ≠ m) (filter (fun k => k ≠ n) s).
Proof.
  rewrite !list_filter_filter. apply list_filter_iff. tauto.
Qed.

Lemma filter_ne_idemp (n : Z) (s : list Z) :
  filter (fun k => k ≠ n) (filter (fun k => k ≠ n) s)
  = filter (fun k => k ≠ n) s.
Proof.
  rewrite list_filter_filter. apply list_filter_iff. tauto.
Qed.

Lemma delete_ref_comm i j c :
  delete_ref i (delete_ref j c) = delete_ref j (delete_ref i c).
Proof.
  destruct i as [n |], j as [m |]; try reflexivity.
  unfold delete_ref, remove_item, with_stacking, with_items. cbn.
  rewrite filter_ne_comm, delete_delete. reflexivity.
Qed.

Lemma delete_ref_idemp i c : delete_ref i (delete_ref i c) = delete_ref i c.
Proof.
  destruct i as [n |]; [| reflexivity].
  unfold delete_ref, remove_item, with_stacking, with_items. cbn.
  rewrite filter_ne_idemp, delete_delete_eq. reflexivity.
Qed.

Lemma delete_ref_absorbed e c r :
  r ∈ references e ->
  let c' := delete_ref (text_middle e) (delete_ref (text_dst e)
              (delete_ref (text_src e) (delete_ref (edge_id e) c))) in
  delete_ref r c' = c'.
Proof.
  intros Hr c'. subst c'. unfold references in Hr.
  repeat (apply elem_of_cons in Hr as [-> | Hr]); [| | | | set_solver].
  - rewrite (delete_ref_comm (edge_id e) (text_middle e)).
    rewrite (delete_ref_comm (edge_id e) (text_dst e)).
    rewrite (delete_ref_comm (edge_id e) (text_src e)).
    rewrite delete_ref_idemp. reflexivity.
  - rewrite (delete_ref_comm (text_src e) (text_middle e)).
    rewrite (delete_ref_comm (text_src e) (text_dst e)).
    rewrite delete_ref_idemp. reflexivity.
  - rewrite (delete_ref_comm (text_dst e) (text_middle e)).
    rewrite delete_ref_idemp. reflexivity.
  - apply delete_ref_idemp.
Qed.

(** C7 (as amended): [delete] never raises, whichever of the four references
    of the edge are [None]; afterwards no reference of the edge names an item
    of the canvas, every other item is untouched, and a second [delete]
    raises nothing and changes nothing.  The edge object itself is left as
    it was: its fields still hold the ids of the removed items. *)
Theorem CanvasEdge_delete_removes_primitives e c :
  ∃ c',
    CanvasEdge_delete (World e c) = Ok tt (World e c')
    ∧ (∀ r, r ∈ references e -> item_of r c' = None)
    ∧ (∀ k, Some k ∉ references e -> items c' !! k = items c !! k)
    ∧ CanvasEdge_delete (World e c') = Ok tt (World e c').
Proof.
  eexists. split; [apply CanvasEdge_delete_spec |].
  set (c' := delete_ref _ _). split; [| split].
  - intros [n |] Hr; [| reflexivity].
    pose proof (delete_ref_absorbed e c (Some n) Hr) as Ha.
    cbv zeta in Ha. fold c' in Ha. rewrite <- Ha.
    cbn. apply lookup_delete_eq.
  - intros k Hk. unfold c', references in *.
    rewrite !items_delete_ref.
    repeat (rewrite decide_False by set_solver). reflexivity.
  - rewrite CanvasEdge_delete_spec. do 2 f_equal. unfold c'.
    rewrite !(delete_ref_absorbed e c) by (unfold references; set_solver).
    reflexivity.
Qed.
End DeleteProperties.

(** ** Runs on the small topology *)

Local Open Scope R_scope.

(** The worlds used below are what the constructor, [complete] and
    [set_link] return. *)
Lemma demo_worlds_reached :
  CanvasEdge_init demo_canvas0 1 (0, 0) (3, 4) = Ok tt (demo_pending 1 (0, 0))
  ∧ CanvasEdge_complete demo_is_wireless 2 (demo_pending 1 (0, 0))
    = Ok tt demo_world
  ∧ CanvasEdge_set_link demo_link demo_world = Ok tt demo_linked_world
  ∧ CanvasEdge_init demo_canvas0 3 (0, 10) (3, 4)
    = Ok tt (demo_pending 3 (0, 10))
  ∧ CanvasEdge_complete demo_is_wireless 4 (demo_pending 3 (0, 10))
    = Ok tt (World demo_wlan_edge demo_wlan_canvas).
Proof. repeat apply conj; vm_compute; reflexivity. Qed.

(** The line of the demo edge is item 10 and runs from [(0, 0)] to
    [(10, 0)] in the default colour. *)
Lemma demo_world_line :
  ∃ it mx my,
    edge_id demo_edge = Some 10%Z
    ∧ items demo_canvas !! 10%Z = Some it
    ∧ item_coords it = [0; 0; mx; my; 10; 0]
    ∧ item_fill it = EDGE_COLOR.
Proof. eexists _, _, _. repeat apply conj; reflexivity. Qed.

(** The labelled edge holds the line 10, the endpoint labels 11 and 12 and
    the throughput label 13, which sits at [(5, 0)]. *)
Lemma demo_labelled_world_items :
  references demo_labelled_edge = [Some 10; Some 11; Some 12; Some 13]%Z
  ∧ item_coords <$> items demo_labelled_canvas !! 10%Z
    = Some (curve_points 0 (0, 0) (10, 0))
  ∧ item_text <$> items demo_labelled_canvas !! 11%Z
    = Some "10.0.0.1/24"%string
  ∧ item_text <$> items demo_labelled_canvas !! 12%Z
    = Some "10.0.0.2/24"%string
  ∧ item_coords <$> items demo_labelled_canvas !! 13%Z = Some [5; 0].
Proof. repeat apply conj; vm_compute; reflexivity. Qed.

(** C2, the amended statement at work: node 3 is no end of the edge from
    1 to 2, and [move_node(3, 7, 7)] moves the destination end to
    [(7, 7)]. *)
Lemma Edge_move_node_other_handle_moves_dst_witness :
  ∃ c',
    Edge_move_node 3 7 7 (World demo_edge demo_canvas)
    = Ok tt (World demo_edge c')
    ∧ item_coords <$> item_of (edge_id demo_edge) c'
      = Some (curve_points (arc demo_edge) (0, 0) (7, 7)).
Proof.
  eapply (Edge_move_node_other_handle_moves_dst demo_edge demo_canvas
            3 7 7 10).
  - vm_compute. discriminate.
  - reflexivity.
  - reflexivity.
  - reflexivity.
Defined.

(** C2 does not hold as stated: handle 3 is neither the source (1) nor the
    destination (2) of the demo edge, yet [move_node(3, 7, 7)] returns
    normally with other coordinates for the line than before the call. *)
Lemma Edge_move_node_unrelated_handle_moves_line :
  src demo_edge ≠ 3%Z
  ∧ dst demo_edge ≠ Some 3%Z
  ∧ ∃ c',
      Edge_move_node 3 7 7 demo_world = Ok tt (World demo_edge c')
      ∧ item_coords <$> item_of (edge_id demo_edge) c'
        ≠ item_coords <$> item_of (edge_id demo_edge) demo_canvas.
Proof.
  split; [vm_compute; discriminate |]. split; [vm_compute; discriminate |].
  destruct demo_world_line as (it & mx & my & Hid & Hit & Hcs & _).
  eexists. split.
  - unfold Edge_move_node, demo_world. run.
    destruct (decide (src demo_edge = 3%Z)) as [Heq | _];
      [vm_compute in Heq; discriminate Heq |].
    eapply (Edge_move_dst_spec _ _ 10); [exact Hid | exact Hit | exact Hcs].
  - rewrite Hid, item_of_alter_eq. unfold item_of. rewrite Hit.
    cbn [fmap option_fmap option_map item_coords item_set_coords].
    rewrite Hcs. unfold curve_points. cbn [fst snd].
    intros [= _ _ H3 _]. lra.
Qed.


(** C5 (evaluation at the failing input): the first [set_throughput(12345.0)]
    on the completed demo edge, which has no throughput label yet, raises
    [ValueError] out of [get_midpoint] and leaves edge and canvas as they
    were, so no label is created; the text it had formatted is
    ["12.345 kbps"]. *)
Theorem CanvasEdge_set_throughput_first_call_raises :
  text_middle demo_edge = None
  ∧ CanvasEdge_set_throughput 12345 demo_world = Raise ValueError demo_world
  ∧ throughput_text ((1 / 1000) * 12345) = "12.345 kbps"%string.
Proof.
  split; [vm_compute; reflexivity |].
  split; [| apply throughput_text_12345].
  destruct demo_world_line as (it & mx & my & Hid & Hit & Hcs & _).
  eapply CanvasEdge_set_throughput_no_label;
    [exact Hid | vm_compute; reflexivity | exact Hit | exact Hcs].
Qed.

(** C6 (evaluation at the failing input): with the threshold at 250,
    [set_throughput(1000000.0)] is a throughput of 1000 above the threshold,
    but the call raises [ValueError] before it restyles the line, which
    keeps the default colour and not the escalated one. *)
Theorem CanvasEdge_set_throughput_above_threshold_no_restyle :
  (1 / 1000) * 1000000 > throughput_threshold demo_canvas
  ∧ CanvasEdge_set_throughput 1000000 demo_world = Raise ValueError demo_world
  ∧ item_fill <$> item_of (edge_id demo_edge) demo_canvas = Some EDGE_COLOR
  ∧ throughput_color demo_canvas ≠ EDGE_COLOR.
Proof.
  destruct demo_world_line as (it & mx & my & Hid & Hit & Hcs & Hfill).
  split.
  { change (throughput_threshold demo_canvas) with 250. lra. }
  split.
  { eapply CanvasEdge_set_throughput_no_label;
      [exact Hid | vm_compute; reflexivity | exact Hit | exact Hcs]. }
  split.
  { rewrite Hid. unfold item_of. rewrite Hit. cbn. rewrite Hfill.
    reflexivity. }
  vm_compute. discriminate.
Qed.

(** C7 does not hold as stated: after [delete], and after a second
    [delete], neither of which raises, the four references of the labelled
    edge still hold the ids 10 to 13, and each of them dangles. *)
Lemma CanvasEdge_delete_leaves_dangling_references :
  let o1 := CanvasEdge_delete demo_labelled_world in
  let o2 := CanvasEdge_delete (final o1) in
  raised o1 = None
  ∧ raised o2 = None
  ∧ references (self (final o2)) = [Some 10; Some 11; Some 12; Some 13]%Z
  ∧ dangling (edge_id (self (final o2))) (canvas (final o2)) = true
  ∧ dangling (text_src (self (final o2))) (canvas (final o2)) = true
  ∧ dangling (text_dst (self (final o2))) (canvas (final o2)) = true
  ∧ dangling (text_middle (self (final o2))) (canvas (final o2)) = true.
Proof. repeat apply conj; vm_compute; reflexivity. Qed.

(** C4 at work: completing the pending edge of the wireless node 3 at the
    wired node 4 registers 4 under 3, hides the line 10 and requests one
    antenna on node 4 and none on node 3. *)
Lemma CanvasEdge_complete_wireless_policy_witness :
  ∃ e' c',
    CanvasEdge_complete demo_is_wireless 4
      (World (demo_pending_edge 3 (0, 10)) (demo_pending_canvas 3 (0, 10)))
    = Ok tt (World e' c')
    ∧ wireless_network c' !! 3%Z = Some (∅ ∪ {[4%Z]})
    ∧ item_hidden <$> items c' !! 10%Z = Some true
    ∧ antennas <$> nodes c' !! 4%Z = Some 1%nat
    ∧ antennas <$> nodes c' !! 3%Z = Some 0%nat.
Proof.
  destruct (CanvasEdge_complete_wireless_policy demo_is_wireless
              (demo_pending_edge 3 (0, 10)) (demo_pending_canvas 3 (0, 10))
              10 _ _ _ _ _ _ _ 4 _ _ _ (demo_node true) (demo_node false)
              eq_refl eq_refl eq_refl eq_refl eq_refl eq_refl eq_refl)
    as (e' & c' & Hrun & Hhub & _).
  destruct (Hhub (conj eq_refl eq_refl)) as (Hnet & Hhid & Hnodes & Hsrc).
  exists e', c'. split; [exact Hrun |]. split; [exact Hnet |].
  split; [exact Hhid |]. split; [| exact (f_equal (fmap antennas) Hsrc)].
  rewrite Hnodes. vm_compute. reflexivity.
Defined.

(** C8 at work: on the edge from 3 to 4, already classified once by
    [complete], one more call of [is_wireless] and four more calls leave the
    same canvas, with 4 in the set of hub 3. *)
Lemma CanvasEdge_is_wireless_idempotent_witness :
  ∃ c1 cn,
    iterate 1 (CanvasEdge_is_wireless demo_is_wireless)
      (World demo_wlan_edge demo_wlan_canvas)
    = Ok tt (World demo_wlan_edge c1)
    ∧ iterate 4 (CanvasEdge_is_wireless demo_is_wireless)
        (World demo_wlan_edge demo_wlan_canvas)
      = Ok tt (World demo_wlan_edge cn)
    ∧ cn = c1
    ∧ wireless_network cn !! 3%Z
      = Some (default ∅ (wireless_network demo_wlan_canvas !! 3%Z) ∪ {[4%Z]})
    ∧ ∀ k, k ≠ 3%Z ->
        wireless_network cn !! k = wireless_network demo_wlan_canvas !! k.
Proof.
  apply (CanvasEdge_is_wireless_idempotent demo_is_wireless
           demo_wlan_edge demo_wlan_canvas 4 (demo_node true)
           (add_antenna (demo_node false)) 3 4 3).
  - vm_compute. reflexivity.
  - vm_compute. reflexivity.
  - vm_compute. reflexivity.
  - left. repeat apply conj; vm_compute; reflexivity.
Defined.

(** C10 at work: completing the pending edge of the wireless node 3 at the
    wireless node 5 leaves [wireless_network] as it was. *)
Lemma CanvasEdge_complete_both_wireless_no_registration_witness :
  ∃ e' c',
    CanvasEdge_complete demo_is_wireless 5
      (World (demo_pending_edge 3 (0, 10)) (demo_pending_canvas 3 (0, 10)))
    = Ok tt (World e' c')
    ∧ wireless_network c' = wireless_network (demo_pending_canvas 3 (0, 10)).
Proof.
  eapply (CanvasEdge_complete_both_wireless_no_registration demo_is_wireless
           (demo_pending_edge 3 (0, 10)) (demo_pending_canvas 3 (0, 10))
           10 _ _ _ _ _ _ _ 5 _ _ _ (demo_node true) (demo_node true));
    reflexivity.
Defined.

(** * Further properties of the code *)

(** ** Tokens and labels *)

(** X1: two pairs of handles have the same token exactly when they are the
    same pair up to order. *)
Theorem create_edge_token_identifies_pair (a b c d : Z) :
  create_edge_token a b = create_edge_token c d
  ↔ (a = c ∧ b = d) ∨ (a = d ∧ b = c).
Proof.
  rewrite !create_edge_token_min_max. split.
  - intros [= Hmin Hmax]. lia.
  - intros [[-> ->] | [-> ->]]; [reflexivity |].
    rewrite Z.min_comm, Z.max_comm. reflexivity.
Qed.

Lemma string_app_empty (s t : string) :
  (s ++ t)%string = ""%string -> s = ""%string ∧ t = ""%string.
Proof. destruct s; cbn; [auto | discriminate]. Qed.

(** X2: the label of an interface is empty exactly when the interface has
    neither an IPv4 nor an IPv6 address. *)
Theorem interface_label_empty_iff (i : Interface) :
  interface_label i = ""%string ↔ ip4 i = ""%string ∧ ip6 i = ""%string.
Proof.
  unfold interface_label.
  destruct (decide (ip4 i = ""%string)) as [H4 | H4],
           (decide (ip6 i = ""%string)) as [H6 | H6]; split;
    try (intros; split; assumption); try reflexivity.
  - intros H. apply string_app_empty in H as [_ H]. discriminate H.
  - intros [_ H]. contradiction.
  - intros H. apply string_app_empty in H as [H _]. contradiction.
  - intros [H _]. contradiction.
  - intros H. apply string_app_empty in H as [H _].
    apply string_app_empty in H as [H _]. contradiction.
  - intros [H _]. contradiction.
Qed.

Local Open Scope R_scope.

(** ** The control point *)

(** X3: whatever the two positions, the offset of the control point from the
    midpoint is at right angles to the vector
    [(dst_x - src_y, dst_y - src_y)], the one whose angle the code takes. *)
Theorem _get_midpoint_offset_perpendicular_to_angle_vector
    (arc src_x src_y dst_x dst_y : R) :
  let mp := _get_midpoint arc (src_x, src_y) (dst_x, dst_y) in
  let ox := mp.1 - (src_x + dst_x) / 2 in
  let oy := mp.2 - (src_y + dst_y) / 2 in
  ox * (dst_x - src_y) + oy * (dst_y - src_y) = 0.
Proof.
  cbn. set (X := dst_x - src_y). set (Y := dst_y - src_y).
  assert (Hkey : sin (atan2 Y X) * X - cos (atan2 Y X) * Y = 0).
  { assert (Hatan : ∀ q, sin (atan q) = q * cos (atan q)).
    { intros q.
      assert (Hc : cos (atan q) ≠ 0).
      { apply Rgt_not_eq, cos_gt_0; pose proof (atan_bound q); lra. }
      rewrite <- (tan_atan q) at 2. unfold tan. field. exact Hc. }
    unfold atan2.
    destruct (Rlt_dec 0 X) as [Hx | Hx].
    - rewrite Hatan. field. lra.
    - destruct (Rlt_dec X 0) as [Hx' | Hx'].
      + destruct (Rle_dec 0 Y).
        * rewrite neg_sin, neg_cos, Hatan. field. lra.
        * replace (atan (Y / X) - PI) with (- (PI - atan (Y / X))) by ring.
          rewrite sin_neg, cos_neg.
          rewrite sin_PI_x.
          replace (PI - atan (Y / X)) with (- atan (Y / X) + PI) by ring.
          rewrite neg_cos, cos_neg, Hatan. field. lra.
      + assert (X = 0) as -> by lra.
        destruct (Rlt_dec 0 Y); [rewrite sin_PI2, cos_PI2; ring |].
        destruct (Rlt_dec Y 0).
        * rewrite sin_neg, cos_neg, sin_PI2, cos_PI2. ring.
        * assert (Y = 0) as -> by lra. ring. }
  replace (_ * X + _ * Y)
    with (arc * (sin (atan2 Y X) * X - cos (atan2 Y X) * Y)) by ring.
  rewrite Hkey. ring.
Qed.

(** ** The throughput text *)

Lemma round_half_even_near (y : R) (n : Z) :
  Rabs (y - IZR n) < 1 / 2 -> round_half_even y = n.
Proof.
  intros Hnear. apply Rabs_def2 in Hnear as [Hlo Hhi].
  unfold round_half_even.
  destruct (Rle_dec (IZR n) y) as [Hge | Hlt].
  - assert (Hf : Zfloor y = n).
    { apply Zfloor_eq. lra. }
    rewrite Hf. destruct (Rlt_dec (y - IZR n) (1 / 2)); [reflexivity | lra].
  - assert (Hf : Zfloor y = (n - 1)%Z).
    { apply Zfloor_eq. rewrite minus_IZR. lra. }
    rewrite Hf, minus_IZR.
    destruct (Rlt_dec (y - (IZR n - 1)) (1 / 2)); [lra |].
    destruct (Rlt_dec (1 / 2) (y - (IZR n - 1))); [f_equal; lia | lra].
Qed.

(** X4: [.3f] rounds to the nearest thousandth: a value that is not negative
    and lies within half a thousandth of [n / 1000] is shown with the integer
    part [n / 1000] and the three decimals [n mod 1000]. *)
Theorem format_3f_nearest_thousandth (x : R) (n : Z) :
  0 <= x ->
  Rabs (1000 * x - IZR n) < 1 / 2 ->
  format_3f x
  = (pretty (n / 1000)%Z ++ "." ++ pad3 (n mod 1000)%Z)%string.
Proof.
  intros Hx Hnear. unfold format_3f.
  rewrite (Rabs_pos_eq x Hx), (round_half_even_near _ n Hnear).
  destruct (Rlt_dec x 0); [lra | reflexivity].
Qed.

(** X5: a value exactly halfway between two thousandths is shown as the one
    whose last digit is even. *)
Theorem format_3f_tie_to_even (x : R) (n : Z) :
  0 <= x ->
  1000 * x = IZR n + 1 / 2 ->
  format_3f x
  = let m := if Z.even n then n else (n + 1)%Z in
    (pretty (m / 1000)%Z ++ "." ++ pad3 (m mod 1000)%Z)%string.
Proof.
  intros Hx Htie. unfold format_3f.
  rewrite (Rabs_pos_eq x Hx), Htie. unfold round_half_even.
  assert (Hf : Zfloor (IZR n + 1 / 2) = n) by (apply Zfloor_eq; lra).
  rewrite Hf.
  destruct (Rlt_dec (IZR n + 1 / 2 - IZR n) (1 / 2)); [lra |].
  destruct (Rlt_dec (1 / 2) (IZR n + 1 / 2 - IZR n)); [lra |].
  destruct (Rlt_dec x 0); [lra | reflexivity].
Qed.


Section Registration.
Implicit Types (net : gmap Z (gset Z)).

(** X7: registrations commute: the mapping does not depend on the order in
    which two peers are registered, under the same hub or under two hubs. *)
Theorem wlan_register_commute (h1 p1 h2 p2 : Z) net :
  wlan_register h1 p1 (wlan_register h2 p2 net)
  = wlan_register h2 p2 (wlan_register h1 p1 net).
Proof.
  apply map_eq. intros k.
  destruct (decide (h1 = h2)) as [-> | Hne].
  - destruct (decide (k = h2)) as [-> | Hk].
    + rewrite !wlan_register_lookup. cbn. f_equal.
      rewrite <- !(assoc_L (∪)). f_equal. apply (comm_L (∪)).
    + rewrite !wlan_register_lookup_ne by exact Hk. reflexivity.
  - destruct (decide (k = h1)) as [-> | Hk1].
    + rewrite wlan_register_lookup, (wlan_register_lookup_ne h2) by exact Hne.
      rewrite (wlan_register_lookup_ne h2) by exact Hne.
      rewrite wlan_register_lookup. reflexivity.
    + rewrite (wlan_register_lookup_ne h1) by exact Hk1.
      destruct (decide (k = h2)) as [-> | Hk2].
      * rewrite !wlan_register_lookup.
        rewrite (wlan_register_lookup_ne h1) by exact Hk1. reflexivity.
      * rewrite !(wlan_register_lookup_ne h2) by exact Hk2.
        rewrite (wlan_register_lookup_ne h1) by exact Hk1. reflexivity.
Qed.

(** X8: a registration only adds: every hub stays a key, every set keeps its
    members, and the peer is in the set of the hub afterwards. *)
Theorem wlan_register_only_adds (hub peer : Z) net :
  (∀ k, default ∅ (net !! k) ⊆ default ∅ (wlan_register hub peer net !! k))
  ∧ dom net ⊆ dom (wlan_register hub peer net)
  ∧ peer ∈ default ∅ (wlan_register hub peer net !! hub).
Proof.
  assert (Hsub : ∀ k,
    default ∅ (net !! k) ⊆ default ∅ (wlan_register hub peer net !! k)).
  { intros k. destruct (decide (k = hub)) as [-> | Hk].
    - rewrite wlan_register_lookup. cbn. apply union_subseteq_l.
    - rewrite wlan_register_lookup_ne by exact Hk. reflexivity. }
  split; [exact Hsub |]. split.
  - intros k Hk. apply elem_of_dom in Hk. apply elem_of_dom.
    destruct (decide (k = hub)) as [-> | Hne].
    + rewrite wlan_register_lookup. eauto.
    + rewrite wlan_register_lookup_ne by exact Hne. exact Hk.
  - rewrite wlan_register_lookup. cbn. apply elem_of_union_r.
    apply elem_of_singleton. reflexivity.
Qed.
End Registration.

(** ** Drawing and moving the line *)

Section LineProperties.
Context {NodeType : Type}.
Implicit Types (e : edge) (c : @CanvasGraph NodeType) (it : item).
Implicit Types (w : @world NodeType).

Lemma CanvasEdge_init_spec c (src : Z) (src_pos dst_pos : R * R) :
  CanvasEdge_init c src src_pos dst_pos
  = Ok tt
      (World (set_edge_id (Some (next_id c)) (Edge_init src None))
         (with_next_id (next_id c + 1)%Z
            (with_stacking (fun s => (s ++ [next_id c])%list)
               (with_items
                  (insert (next_id c)
                     (Item TAG_EDGE (curve_points 0 src_pos dst_pos) ""
                        EDGE_COLOR (EDGE_WIDTH * app_scale c) false))
                  c)))).
Proof. reflexivity. Qed.

(** X9: the constructor never raises.  It leaves a pending edge (no
    destination, no token, no labels) whose line is a new item with the id
    the canvas had next, drawn straight from the source position through the
    exact midpoint to the pointer, in the default colour and the default
    width scaled by the application scale; no item that was on the canvas is
    changed. *)
Theorem CanvasEdge_init_draws_straight_line c (src : Z) (sx sy dx dy : R) :
  ∃ e' c' line,
    CanvasEdge_init c src (sx, sy) (dx, dy) = Ok tt (World e' c')
    ∧ e' = set_edge_id (Some (next_id c)) (Edge_init src None)
    ∧ items c' !! next_id c = Some line
    ∧ item_coords line = [sx; sy; (sx + dx) / 2; (sy + dy) / 2; dx; dy]
    ∧ item_fill line = EDGE_COLOR
    ∧ item_width line = EDGE_WIDTH * app_scale c
    ∧ item_hidden line = false
    ∧ next_id c' = (next_id c + 1)%Z
    ∧ ∀ k, k ≠ next_id c -> items c' !! k = items c !! k.
Proof.
  eexists _, _, _. split; [apply CanvasEdge_init_spec |].
  split; [reflexivity |].
  cbn [items with_items with_stacking with_next_id].
  split; [apply lookup_insert_eq |].
  split.
  { cbn [item_coords]. unfold curve_points.
    rewrite _get_midpoint_arc_0. reflexivity. }
  repeat (split; [reflexivity |]).
  intros k Hk. apply lookup_insert_ne. congruence.
Qed.

Lemma with_items_alter_coords_twice c l it (cs1 cs2 : list R) :
  items c !! l = Some it ->
  with_items (alter (item_set_coords cs2) l)
    (with_items (alter (item_set_coords cs1) l) c)
  = with_items (insert l (item_set_coords cs2 it)) c.
Proof.
  intros Hit. destruct c. unfold with_items. cbn in *. f_equal.
  apply map_eq. intros k. destruct (decide (k = l)) as [-> | Hk].
  - rewrite !lookup_alter_eq, lookup_insert_eq, Hit. reflexivity.
  - rewrite !lookup_alter_ne, lookup_insert_ne by congruence. reflexivity.
Qed.

(** X10: moving the two ends of a drawn line commutes.  [move_src(a, b)]
    followed by [move_dst(x, y)] and the two calls in the other order leave
    the same canvas, on which the line runs from [(a, b)] to [(x, y)]
    through the control point of these two ends: nothing of the former
    coordinates is left. *)
Theorem Edge_move_src_dst_commute
    e c l it x1 y1 mx my x2 y2 (a b x y : R) :
  edge_id e = Some l ->
  items c !! l = Some it ->
  item_coords it = [x1; y1; mx; my; x2; y2] ->
  let c' :=
    with_items
      (insert l (item_set_coords (curve_points (arc e) (a, b) (x, y)) it)) c in
  bind (Edge_move_src a b) (fun _ => Edge_move_dst x y) (World e c)
  = Ok tt (World e c')
  ∧ bind (Edge_move_dst x y) (fun _ => Edge_move_src a b) (World e c)
    = Ok tt (World e c').
Proof.
  intros Hid Hit Hcs c'. split.
  - unfold bind.
    rewrite (Edge_move_src_spec e c l it _ _ _ _ _ _ a b Hid Hit Hcs).
    erewrite (Edge_move_dst_spec e _ l);
      [| exact Hid | cbn; rewrite lookup_alter_eq, Hit; reflexivity
       | reflexivity].
    cbn [fst snd]. rewrite (with_items_alter_coords_twice c l it _ _ Hit).
    reflexivity.
  - unfold bind.
    rewrite (Edge_move_dst_spec e c l it _ _ _ _ _ _ x y Hid Hit Hcs).
    erewrite (Edge_move_src_spec e _ l);
      [| exact Hid | cbn; rewrite lookup_alter_eq, Hit; reflexivity
       | reflexivity].
    cbn [fst snd]. rewrite (with_items_alter_coords_twice c l it _ _ Hit).
    reflexivity.
Qed.

(** X11: [move_node] with the source handle moves the source end of a drawn
    line to [(x, y)] and keeps its destination end, also when the
    destination handle is the same handle (a self-loop): the test for the
    source comes first. *)
Theorem Edge_move_node_source_handle_moves_src
    e c (node_id : Z) (x y : R) l it x1 y1 mx my x2 y2 :
  src e = node_id ->
  edge_id e = Some l ->
  items c !! l = Some it ->
  item_coords it = [x1; y1; mx; my; x2; y2] ->
  ∃ c',
    Edge_move_node node_id x y (World e c) = Ok tt (World e c')
    ∧ item_coords <$> item_of (edge_id e) c'
      = Some (curve_points (arc e) (x, y) (x2, y2)).
Proof.
  intros Heq Hid Hit Hcs. unfold Edge_move_node. run.
  destruct (decide (src e = node_id)) as [_ | Hne]; [| contradiction].
  rewrite (Edge_move_src_spec _ _ _ _ _ _ _ _ _ _ _ _ Hid Hit Hcs).
  eexists. split; [reflexivity |].
  rewrite Hid, item_of_alter_eq. cbn. rewrite Hit. reflexivity.
Qed.

(** X12: a deleted edge cannot be moved.  After [delete], which succeeds on
    every drawn edge, [move_node] raises [ValueError] for every handle and
    position, and changes nothing. *)
Theorem Edge_move_node_after_delete_raises e c (node_id : Z) (x y : R) l :
  edge_id e = Some l ->
  ∃ c',
    CanvasEdge_delete (World e c) = Ok tt (World e c')
    ∧ Edge_move_node node_id x y (World e c')
      = Raise ValueError (World e c').
Proof.
  intros Hid. eexists. split; [apply CanvasEdge_delete_spec |].
  set (c' := delete_ref _ _).
  assert (Hgone : items c' !! l = None).
  { unfold c'. rewrite !items_delete_ref.
    repeat case_decide; try reflexivity. congruence. }
  unfold Edge_move_node. run.
  destruct (decide (src e = node_id));
    [unfold Edge_move_src | unfold Edge_move_dst];
    run; rewrite Hid; run; rewrite Hgone; reflexivity.
Qed.

Lemma Edge_move_node_keeps_line_drawn w (node_id : Z) (x y : R) :
  line_drawn w ->
  ∃ w', Edge_move_node node_id x y w = Ok tt w' ∧ line_drawn w'.
Proof.
  intros (l & it & x1 & y1 & mx & my & x2 & y2 & Hid & Hit & Hcs).
  destruct w as [e c]. cbn in *.
  pose proof (Edge_move_node_spec e c node_id x y l it _ _ _ _ _ _
                Hid Hit Hcs) as Hrun.
  destruct (moved_ends e node_id x y x1 y1 x2 y2) as [[px py] [qx qy]].
  eexists. split; [exact Hrun |].
  exists l, (item_set_coords (curve_points (arc e) (px, py) (qx, qy)) it).
  eexists _, _, _, _, _, _. cbn. split; [exact Hid |].
  split; [rewrite lookup_alter_eq, Hit; reflexivity | reflexivity].
Qed.

(** X13: [get_midpoint] fails on every edge this file draws.  After the
    constructor and any sequence of [move_node] calls, all of which return
    normally, [get_midpoint] raises [ValueError] and changes nothing: the
    line has six coordinates and [get_midpoint] unpacks four. *)
Theorem CanvasEdge_get_midpoint_raises_after_moves
    c (src : Z) (src_pos dst_pos : R * R) (ms : list (Z * R * R)) :
  ∃ w',
    Edge_move_nodes ms (final (CanvasEdge_init c src src_pos dst_pos))
    = Ok tt w'
    ∧ CanvasEdge_get_midpoint w' = Raise ValueError w'.
Proof.
  assert (Hinit : line_drawn (final (CanvasEdge_init c src src_pos dst_pos))).
  { exists (next_id c). eexists _, _, _, _, _, _, _.
    rewrite CanvasEdge_init_spec. destruct src_pos, dst_pos.
    cbn. split; [reflexivity |]. split; [apply lookup_insert_eq |].
    reflexivity. }
  revert Hinit. generalize (final (CanvasEdge_init c src src_pos dst_pos)).
  induction ms as [| [[node_id x] y] ms IH]; intros w Hw.
  - exists w. split; [reflexivity |].
    destruct Hw as (l & it & x1 & y1 & mx & my & x2 & y2 & Hid & Hit & Hcs).
    destruct w as [e c0].
    exact (CanvasEdge_get_midpoint_six_coords e c0 l it _ _ _ _ _ _
             Hid Hit Hcs).
  - destruct (Edge_move_node_keeps_line_drawn w node_id x y Hw)
      as (w1 & Hrun & Hw1).
    destruct (IH w1 Hw1) as (w' & Hrest & Hmid).
    exists w'. split; [| exact Hmid].
    cbn [Edge_move_nodes]. unfold bind. rewrite Hrun. exact Hrest.
Qed.

(** X14: on a drawn edge whose endpoint labels have not been drawn yet,
    [CanvasEdge.move_node] first moves the line and then raises [TclError]
    when it places the source label. *)
Theorem CanvasEdge_move_node_before_labels_raises
    e c (node_id : Z) (x y : R) l it x1 y1 mx my x2 y2 :
  edge_id e = Some l ->
  text_src e = None ->
  items c !! l = Some it ->
  item_coords it = [x1; y1; mx; my; x2; y2] ->
  ∃ c',
    CanvasEdge_move_node node_id x y (World e c)
    = Raise TclError (World e c')
    ∧ item_coords <$> items c' !! l
      = Some (curve_points (arc e)
                (moved_ends e node_id x y x1 y1 x2 y2).1
                (moved_ends e node_id x y x1 y1 x2 y2).2).
Proof.
  intros Hid Hsrc Hit Hcs.
  pose proof (Edge_move_node_spec e c node_id x y l it _ _ _ _ _ _
                Hid Hit Hcs) as Hmove.
  destruct (moved_ends e node_id x y x1 y1 x2 y2) as [[px py] [qx qy]].
  unfold CanvasEdge_move_node, bind at 1. rewrite Hmove.
  unfold CanvasEdge_update_labels, bind at 1.
  erewrite (CanvasEdge_get_coordinates_spec e _ l);
    [| exact Hid | cbn; rewrite lookup_alter_eq, Hit; reflexivity
     | reflexivity].
  run. rewrite Hsrc. run.
  eexists. split; [reflexivity |].
  cbn. rewrite lookup_alter_eq, Hit. reflexivity.
Qed.

End LineProperties.

(** ** Endpoint labels *)

Section LabelProperties.
Context {NodeType : Type}.
Implicit Types (e : edge) (c : @CanvasGraph NodeType) (it : item).
Implicit Types (w : @world NodeType) (lk : Link).

Lemma CanvasEdge_set_link_spec e c lk l it x1 y1 mx my x2 y2 :
  edge_id e = Some l ->
  items c !! l = Some it ->
  item_coords it = [x1; y1; mx; my; x2; y2] ->
  CanvasEdge_set_link lk (World e c)
  = Ok tt
      (World
         (set_text_dst (Some (next_id c + 1)%Z)
            (set_text_src (Some (next_id c))
               (set_link_field (Some lk) e)))
         (labels_drawn
            (text_item TAG_LINK_INFO
               (x1 + TEXT_DISTANCE * (x2 - x1))
               (y1 + TEXT_DISTANCE * (y2 - y1))
               (interface_label <$> interface_one lk))
            (text_item TAG_LINK_INFO
               (x2 - TEXT_DISTANCE * (x2 - x1))
               (y2 - TEXT_DISTANCE * (y2 - y1))
               (interface_label <$> interface_two lk))
            c)).
Proof.
  intros Hid Hit Hcs.
  unfold CanvasEdge_set_link, CanvasEdge_draw_labels.
  unfold bind at 1. unfold modify_self at 1. cbn [self canvas].
  unfold bind at 1.
  erewrite (CanvasEdge_get_coordinates_spec _ c l);
    [| exact Hid | exact Hit | exact Hcs].
  unfold CanvasEdge_create_labels. run. reflexivity.
Qed.

(** X15: on a drawn edge, [set_link] returns normally, records the link and
    draws the two endpoint labels as new items with the next two ids: the
    source label three tenths of the way from the source end to the
    destination end, the destination label three tenths of the way back from
    the destination end, each with the label of its interface (empty when
    the link has no such interface).  The line is left as it was. *)
Theorem CanvasEdge_set_link_draws_labels e c lk l it x1 y1 mx my x2 y2 :
  edge_id e = Some l ->
  items c !! l = Some it ->
  item_coords it = [x1; y1; mx; my; x2; y2] ->
  (l < next_id c)%Z ->
  ∃ e' c',
    CanvasEdge_set_link lk (World e c) = Ok tt (World e' c')
    ∧ link e' = Some lk
    ∧ text_src e' = Some (next_id c)
    ∧ text_dst e' = Some (next_id c + 1)%Z
    ∧ items c' !! next_id c
      = Some (text_item TAG_LINK_INFO
                (x1 + 3 / 10 * (x2 - x1)) (y1 + 3 / 10 * (y2 - y1))
                (interface_label <$> interface_one lk))
    ∧ items c' !! (next_id c + 1)%Z
      = Some (text_item TAG_LINK_INFO
                (x2 - 3 / 10 * (x2 - x1)) (y2 - 3 / 10 * (y2 - y1))
                (interface_label <$> interface_two lk))
    ∧ items c' !! l = Some it
    ∧ next_id c' = (next_id c + 2)%Z.
Proof.
  intros Hid Hit Hcs Hl.
  eexists _, _. split; [exact (CanvasEdge_set_link_spec e c lk l it _ _ _ _ _ _ Hid Hit Hcs) |].
  assert (HTD : TEXT_DISTANCE = 3 / 10) by (unfold TEXT_DISTANCE; lra).
  rewrite HTD. cbn.
  repeat (split; [reflexivity |]).
  split.
  { rewrite lookup_insert_ne by lia. apply lookup_insert_eq. }
  split; [apply lookup_insert_eq |].
  split; [rewrite !lookup_insert_ne by lia; exact Hit | lia].
Qed.

(** X16: labels drawn by an earlier [set_link] are never removed.  A second
    [set_link] draws two more labels and makes the edge refer to them, and a
    [delete] after it removes the line and the newer labels only: the two
    labels of the first call stay on the canvas. *)
Theorem CanvasEdge_set_link_twice_orphans_labels
    e c lk1 lk2 l it x1 y1 mx my x2 y2 :
  edge_id e = Some l ->
  text_middle e = None ->
  items c !! l = Some it ->
  item_coords it = [x1; y1; mx; my; x2; y2] ->
  (l < next_id c)%Z ->
  ∃ w1 w2 w3,
    CanvasEdge_set_link lk1 (World e c) = Ok tt w1
    ∧ CanvasEdge_set_link lk2 w1 = Ok tt w2
    ∧ CanvasEdge_delete w2 = Ok tt w3
    ∧ items (canvas w3) !! l = None
    ∧ is_Some (items (canvas w3) !! next_id c)
    ∧ is_Some (items (canvas w3) !! (next_id c + 1)%Z).
Proof.
  intros Hid Hmid Hit Hcs Hl.
  eexists _, _, _.
  split; [exact (CanvasEdge_set_link_spec e c lk1 l it _ _ _ _ _ _ Hid Hit Hcs) |].
  split.
  { eapply (CanvasEdge_set_link_spec _ _ lk2 l it); [exact Hid | | exact Hcs].
    cbn. rewrite !lookup_insert_ne by lia. exact Hit. }
  split; [apply CanvasEdge_delete_spec |].
  cbn [self canvas]. rewrite !items_delete_ref.
  cbn [text_middle text_dst text_src edge_id set_text_dst set_text_src
       set_link_field next_id labels_drawn with_next_id with_stacking
       with_items items].
  rewrite Hmid, Hid.
  split.
  { repeat case_decide; try reflexivity; congruence. }
  split.
  - rewrite !decide_False by (intros [=]; lia).
    rewrite !lookup_insert_ne by lia. rewrite lookup_insert_eq. eauto.
  - rewrite !decide_False by (intros [=]; lia).
    rewrite !lookup_insert_ne by lia. rewrite lookup_insert_eq. eauto.
Qed.

Lemma item_coords_set_text_option (t : option string) it :
  item_coords (set_text_option t it) = item_coords it.
Proof. destruct t; reflexivity. Qed.

Lemma lookup_alter_preserves {A B} (g : A -> B) (f : A -> A)
    (m : gmap Z A) (i k : Z) :
  (∀ x, g (f x) = g x) -> g <$> alter f i m !! k = g <$> m !! k.
Proof.
  intros Hg. destruct (decide (i = k)) as [-> | Hne].
  - rewrite lookup_alter_eq. destruct (m !! k); cbn; [rewrite Hg |]; reflexivity.
  - rewrite lookup_alter_ne by exact Hne. reflexivity.
Qed.

Lemma CanvasEdge_redraw_spec e c lk :
  link e = Some lk ->
  CanvasEdge_redraw (World e c)
  = Ok tt
      (final (canvas_itemconfig (text_dst e)
                (set_text_option (interface_label <$> interface_two lk))
                (final (canvas_itemconfig (text_src e)
                          (set_text_option
                             (interface_label <$> interface_one lk))
                          (World e c))))).
Proof.
  intros Hlk. unfold CanvasEdge_redraw, CanvasEdge_create_labels. run.
  rewrite Hlk. run.
  destruct (text_src e), (text_dst e); reflexivity.
Qed.

(** X17: [redraw] on an edge with a link and two distinct labels returns
    normally and changes texts only.  Each label takes the label of its
    interface, and keeps the text it had when the link has no such
    interface; no other item is touched and no item changes its
    coordinates. *)
Theorem CanvasEdge_redraw_changes_texts_only e c lk (a b : Z) ia ib :
  link e = Some lk ->
  text_src e = Some a -> text_dst e = Some b -> a ≠ b ->
  items c !! a = Some ia -> items c !! b = Some ib ->
  ∃ c',
    CanvasEdge_redraw (World e c) = Ok tt (World e c')
    ∧ items c' !! a
      = Some (set_text_option (interface_label <$> interface_one lk) ia)
    ∧ items c' !! b
      = Some (set_text_option (interface_label <$> interface_two lk) ib)
    ∧ (∀ k, k ≠ a -> k ≠ b -> items c' !! k = items c !! k)
    ∧ (∀ k, item_coords <$> items c' !! k = item_coords <$> items c !! k).
Proof.
  intros Hlk Ha Hb Hab Hia Hib.
  rewrite (CanvasEdge_redraw_spec e c lk Hlk), Ha, Hb. cbn.
  eexists. split; [reflexivity |]. cbn.
  split; [rewrite lookup_alter_ne, lookup_alter_eq, Hia by congruence;
          reflexivity |].
  split; [rewrite lookup_alter_eq, lookup_alter_ne, Hib by congruence;
          reflexivity |].
  split.
  - intros k Hka Hkb. rewrite !lookup_alter_ne by congruence. reflexivity.
  - intros k.
    rewrite !(lookup_alter_preserves item_coords)
      by (intros x; apply item_coords_set_text_option).
    reflexivity.
Qed.
End LabelProperties.

Section LabelProperties2.
Context {NodeType : Type}.
Implicit Types (e : edge) (c : @CanvasGraph NodeType) (it : item).
Implicit Types (w : @world NodeType) (lk : Link).

Lemma CanvasEdge_get_coordinates_cases w :
  (∃ v, CanvasEdge_get_coordinates w = Ok v w)
  ∨ (∃ ex, CanvasEdge_get_coordinates w = Raise ex w).
Proof.
  destruct w as [e c]. unfold CanvasEdge_get_coordinates. run.
  destruct (edge_id e) as [l |]; run; [| right; eauto].
  destruct (items c !! l) as [it |]; [| right; eauto].
  destruct (item_coords it) as [| x1 [| y1 [| mx [| my [| x2 [| y2 [| z r]]]]]]];
    try (right; eauto; fail).
  left. eauto.
Qed.

Lemma alter_set_text_same (m : gmap Z item) (k : Z) (t : option string)
    (tag : string) (x y : R) :
  m !! k = Some (text_item tag x y t) ->
  alter (set_text_option t) k m = m.
Proof.
  intros Hk. apply map_eq. intros j. destruct (decide (j = k)) as [-> | Hj].
  - rewrite lookup_alter_eq, Hk. destruct t; reflexivity.
  - rewrite lookup_alter_ne by congruence. reflexivity.
Qed.

Lemma CanvasEdge_set_link_raise e c lk ex :
  CanvasEdge_get_coordinates (World (set_link_field (Some lk) e) c)
  = Raise ex (World (set_link_field (Some lk) e) c) ->
  CanvasEdge_set_link lk (World e c)
  = Raise ex (World (set_link_field (Some lk) e) c).
Proof.
  intros H. unfold CanvasEdge_set_link, CanvasEdge_draw_labels. run.
  rewrite H. reflexivity.
Qed.

Lemma CanvasEdge_set_link_ok e c lk (p1x p1y p2x p2y : R) :
  CanvasEdge_get_coordinates (World (set_link_field (Some lk) e) c)
  = Ok (p1x, p1y, p2x, p2y) (World (set_link_field (Some lk) e) c) ->
  CanvasEdge_set_link lk (World e c)
  = Ok tt
      (World
         (set_text_dst (Some (next_id c + 1)%Z)
            (set_text_src (Some (next_id c))
               (set_link_field (Some lk) e)))
         (labels_drawn
            (text_item TAG_LINK_INFO p1x p1y
               (interface_label <$> interface_one lk))
            (text_item TAG_LINK_INFO p2x p2y
               (interface_label <$> interface_two lk))
            c)).
Proof.
  intros H. unfold CanvasEdge_set_link, CanvasEdge_draw_labels. run.
  rewrite H. unfold CanvasEdge_create_labels. run. reflexivity.
Qed.

(** X18: [redraw] right after [set_link] changes nothing: whatever the edge
    and the canvas, [set_link] followed by [redraw] has the outcome of
    [set_link] alone, the same world and, when [set_link] raises, the same
    exception. *)
Theorem CanvasEdge_set_link_then_redraw w lk :
  bind (CanvasEdge_set_link lk) (fun _ => CanvasEdge_redraw) w
  = CanvasEdge_set_link lk w.
Proof.
  destruct w as [e c].
  destruct (CanvasEdge_get_coordinates_cases
              (World (set_link_field (Some lk) e) c))
    as [[[[[p1x p1y] p2x] p2y] Hok] | [ex Hraise]].
  2: { unfold bind. rewrite (CanvasEdge_set_link_raise e c lk ex Hraise).
       reflexivity. }
  unfold bind. rewrite (CanvasEdge_set_link_ok e c lk _ _ _ _ Hok).
  rewrite (CanvasEdge_redraw_spec _ _ lk) by reflexivity.
  cbn [text_src text_dst set_text_dst set_text_src]. run. cbn [final].
  run. do 2 f_equal.
  destruct c as [its st nid nds net thr col wid scale].
  cbv [labels_drawn with_items with_stacking with_next_id items stacking
       next_id nodes wireless_network throughput_threshold throughput_color
       throughput_width app_scale].
  f_equal.
  rewrite (alter_set_text_same _ (nid + 1)%Z _ TAG_LINK_INFO p2x p2y).
  - apply (alter_set_text_same _ nid _ TAG_LINK_INFO p1x p1y).
    rewrite lookup_insert_ne by lia. apply lookup_insert_eq.
  - rewrite lookup_alter_ne by lia. apply lookup_insert_eq.
Qed.

(** X19: labels need a link.  On a drawn edge that has no link yet,
    [draw_labels] and [redraw] raise [AttributeError] and change nothing. *)
Theorem CanvasEdge_labels_need_link e c l it x1 y1 mx my x2 y2 :
  link e = None ->
  edge_id e = Some l ->
  items c !! l = Some it ->
  item_coords it = [x1; y1; mx; my; x2; y2] ->
  CanvasEdge_draw_labels (World e c) = Raise AttributeError (World e c)
  ∧ CanvasEdge_redraw (World e c) = Raise AttributeError (World e c).
Proof.
  intros Hlk Hid Hit Hcs. split.
  - unfold CanvasEdge_draw_labels, bind at 1.
    rewrite (CanvasEdge_get_coordinates_spec e c l it _ _ _ _ _ _ Hid Hit Hcs).
    unfold CanvasEdge_create_labels. run. rewrite Hlk. reflexivity.
  - unfold CanvasEdge_redraw, CanvasEdge_create_labels. run.
    rewrite Hlk. reflexivity.
Qed.

(** ** Throughput and reset *)


(** X21: [reset] on a drawn edge never raises.  It removes the throughput
    label from the canvas if there is one, forgets it, and gives the line
    the default colour and width whatever they were; a second [reset]
    changes nothing. *)
Theorem CanvasEdge_reset_restores_default_style e c l it :
  edge_id e = Some l ->
  items c !! l = Some it ->
  text_middle e ≠ Some l ->
  ∃ c',
    CanvasEdge_reset (World e c)
    = Ok tt (World (set_text_middle None e) c')
    ∧ item_of (text_middle e) c' = None
    ∧ items c' !! l = Some (item_set_style EDGE_COLOR EDGE_WIDTH it)
    ∧ CanvasEdge_reset (World (set_text_middle None e) c')
      = Ok tt (World (set_text_middle None e) c').
Proof.
  intros Hid Hit Hne.
  destruct (CanvasEdge_reset_spec e c) as (c' & Hrun & Hgone & Hline).
  exists c'. split; [exact Hrun |]. split; [exact Hgone |].
  pose proof (Hline l it Hid Hit Hne) as Hl.
  split; [exact Hl |].
  unfold CanvasEdge_reset. run.
  cbn [edge_id text_middle set_text_middle]. run. rewrite Hid. run.
  do 2 f_equal. destruct c'. unfold with_items. cbn in *. f_equal.
  apply map_eq. intros k. destruct (decide (k = l)) as [-> | Hk].
  - rewrite lookup_alter_eq, Hl. reflexivity.
  - rewrite lookup_alter_ne by congruence. reflexivity.
Qed.
End LabelProperties2.

(** ** Completion *)

Section CompletionProperties.
Context {NodeType : Type}.
Variable is_wireless_node : NodeType -> bool.
Implicit Types (e : edge) (c : @CanvasGraph NodeType) (it : item).
Implicit Types (w : @world NodeType).

Lemma CanvasEdge_complete_world e c l it x1 y1 mx my x2 y2 d nit x y ns nd :
  edge_id e = Some l ->
  items c !! l = Some it ->
  item_coords it = [x1; y1; mx; my; x2; y2] ->
  items c !! d = Some nit ->
  item_coords nit = [x; y] ->
  nodes c !! src e = Some ns ->
  nodes c !! d = Some nd ->
  let ws := is_wireless_node (core_node_type ns) in
  let wd := is_wireless_node (core_node_type nd) in
  let c1 :=
    with_wireless_network (registration ws wd (src e) d)
      (with_items
         (alter (item_set_coords (curve_points (arc e) (x1, y1) (x, y))) l)
         c) in
  let c2 :=
    if ws || wd
    then with_nodes (alter add_antenna (if ws && negb wd then d else src e))
           (with_items (alter item_set_hidden l) c1)
    else c1 in
  CanvasEdge_complete is_wireless_node d (World e c)
  = Ok tt
      (World (set_token (Some (create_edge_token (src e) d))
                (set_dst (Some d) e))
         (with_stacking (raise_in d) (with_stacking (raise_in (src e)) c2))).
Proof.
  intros Hid Hit Hcs Hnit Hncs Hs Hnd ws wd c1 c2.
  unfold CanvasEdge_complete. run. rewrite Hnit, Hncs. run.
  set (e' := set_token _ _).
  rewrite (Edge_move_dst_spec e' c l it x1 y1 mx my x2 y2 x y Hid Hit Hcs).
  erewrite (CanvasEdge_check_wireless_spec is_wireless_node e' _ l d ns nd);
    [| exact Hid | exact Hs | reflexivity | exact Hnd].
  reflexivity.
Qed.

Lemma stacking_if (b : bool) (c1 c2 : @CanvasGraph NodeType) :
  stacking (if b then c1 else c2) = if b then stacking c1 else stacking c2.
Proof. destruct b; reflexivity. Qed.

(** X22: [complete(d)] on a drawn pending edge whose destination node is on
    the canvas returns normally, records [d] as destination and the sorted
    pair of the two handles as token, and moves the destination end of the
    line to the position of the item of [d], keeping the source end. *)
Theorem CanvasEdge_complete_records_destination
    e c l it x1 y1 mx my x2 y2 (d : Z) nit x y ns nd :
  edge_id e = Some l ->
  items c !! l = Some it ->
  item_coords it = [x1; y1; mx; my; x2; y2] ->
  items c !! d = Some nit ->
  item_coords nit = [x; y] ->
  nodes c !! src e = Some ns ->
  nodes c !! d = Some nd ->
  ∃ e' c',
    CanvasEdge_complete is_wireless_node d (World e c) = Ok tt (World e' c')
    ∧ src e' = src e
    ∧ dst e' = Some d
    ∧ token e' = Some [Z.min (src e) d; Z.max (src e) d]
    ∧ item_coords <$> items c' !! l
      = Some (curve_points (arc e) (x1, y1) (x, y)).
Proof.
  intros Hid Hit Hcs Hnit Hncs Hs Hnd.
  eexists _, _.
  split; [exact (CanvasEdge_complete_world e c l it _ _ _ _ _ _ d nit x y
                   ns nd Hid Hit Hcs Hnit Hncs Hs Hnd) |].
  split; [reflexivity |]. split; [reflexivity |].
  split; [cbn [token set_token]; rewrite create_edge_token_min_max;
          reflexivity |].
  cbn [items with_stacking].
  destruct (is_wireless_node (core_node_type ns)
            || is_wireless_node (core_node_type nd)); cbn;
    rewrite ?lookup_alter_eq, Hit; reflexivity.
Qed.

(** X23: [complete] raises both endpoint nodes above the line: when the line
    and the images of the two distinct endpoint nodes are in the stacking
    order, the order ends afterwards with the source node and then the
    destination node on top, and the line is below them. *)
Theorem CanvasEdge_complete_raises_endpoints
    e c l it x1 y1 mx my x2 y2 (d : Z) nit x y ns nd :
  edge_id e = Some l ->
  items c !! l = Some it ->
  item_coords it = [x1; y1; mx; my; x2; y2] ->
  items c !! d = Some nit ->
  item_coords nit = [x; y] ->
  nodes c !! src e = Some ns ->
  nodes c !! d = Some nd ->
  l ∈ stacking c -> src e ∈ stacking c -> d ∈ stacking c ->
  l ≠ src e -> src e ≠ d ->
  ∃ e' c' below,
    CanvasEdge_complete is_wireless_node d (World e c) = Ok tt (World e' c')
    ∧ stacking c' = (below ++ [src e; d])%list
    ∧ l ∈ below.
Proof.
  intros Hid Hit Hcs Hnit Hncs Hs Hnd Hl Hsrc Hd Hls Hsd.
  assert (Hld : l ≠ d).
  { intros ->. rewrite Hit in Hnit. injection Hnit as <-.
    rewrite Hcs in Hncs. discriminate Hncs. }
  eexists _, _,
    (filter (fun k => k ≠ d) (filter (fun k => k ≠ src e) (stacking c))).
  split; [exact (CanvasEdge_complete_world e c l it _ _ _ _ _ _ d nit x y
                   ns nd Hid Hit Hcs Hnit Hncs Hs Hnd) |].
  split.
  - cbn [stacking with_stacking]. rewrite stacking_if.
    cbn [stacking with_nodes with_items with_wireless_network].
    replace (if _ || _ then stacking c else stacking c) with (stacking c)
      by (destruct (_ || _); reflexivity).
    unfold raise_in at 2. rewrite decide_True by exact Hsrc.
    unfold raise_in. rewrite decide_True.
    + rewrite filter_app, filter_cons_True by exact Hsd.
      rewrite filter_nil, <- (assoc_L (++)). reflexivity.
    + apply elem_of_app. left. apply list_elem_of_filter. split; [| exact Hd].
      congruence.
  - apply list_elem_of_filter. split; [exact Hld |].
    apply list_elem_of_filter. split; [exact Hls | exact Hl].
Qed.

(** X24: [complete(d)] for a handle that names no item of the canvas raises
    [ValueError].  The edge has recorded the destination and the token by
    then, so it is no longer pending; the canvas is untouched. *)
Theorem CanvasEdge_complete_unknown_item_raises e c (d : Z) :
  items c !! d = None ->
  CanvasEdge_complete is_wireless_node d (World e c)
  = Raise ValueError
      (World (set_token (Some (create_edge_token (src e) d))
                (set_dst (Some d) e)) c).
Proof.
  intros Hd. unfold CanvasEdge_complete. run. rewrite Hd. reflexivity.
Qed.

(** X25: [complete(d)] for an item [d] that is on the canvas while [d] or the
    source handle is no key of [canvas.nodes] raises [KeyError] after it has
    moved the line: the destination end of the line is at the item of [d],
    the line is not hidden and nothing is registered. *)
Theorem CanvasEdge_complete_unknown_node_raises
    e c l it x1 y1 mx my x2 y2 (d : Z) nit x y :
  edge_id e = Some l ->
  items c !! l = Some it ->
  item_coords it = [x1; y1; mx; my; x2; y2] ->
  items c !! d = Some nit ->
  item_coords nit = [x; y] ->
  nodes c !! src e = None ∨ nodes c !! d = None ->
  CanvasEdge_complete is_wireless_node d (World e c)
  = Raise KeyError
      (World (set_token (Some (create_edge_token (src e) d))
                (set_dst (Some d) e))
         (with_items
            (alter (item_set_coords (curve_points (arc e) (x1, y1) (x, y))) l)
            c)).
Proof.
  intros Hid Hit Hcs Hnit Hncs Hmissing.
  unfold CanvasEdge_complete. run. rewrite Hnit, Hncs. run.
  set (e' := set_token _ _).
  rewrite (Edge_move_dst_spec e' c l it x1 y1 mx my x2 y2 x y Hid Hit Hcs).
  unfold CanvasEdge_check_wireless, CanvasEdge_is_wireless, nodes_getitem.
  run. change (src e') with (src e). change (dst e') with (Some d).
  cbn [nodes with_items].
  destruct (nodes c !! src e) as [ns |] eqn:Hs; run; [| reflexivity].
  cbn [nodes with_items].
  destruct Hmissing as [H | H]; [discriminate H |].
  rewrite H. reflexivity.
Qed.

Lemma filter_ne_notin (n : Z) (s : list Z) :
  n ∉ s -> filter (fun k => k ≠ n) s = s.
Proof.
  induction s as [| k s IH]; intros Hn; [reflexivity |].
  apply not_elem_of_cons in Hn as [Hk Hs].
  rewrite filter_cons_True by congruence. rewrite IH by exact Hs.
  reflexivity.
Qed.

(** X26: creating a pending edge and deleting it again restores the canvas:
    when the next id of the canvas is unused, the constructor followed by
    [delete] returns normally and leaves the items, the stacking order, the
    nodes and [wireless_network] as they were before the edge was created. *)
Theorem CanvasEdge_init_then_delete_restores
    c (src : Z) (src_pos dst_pos : R * R) :
  items c !! next_id c = None ->
  next_id c ∉ stacking c ->
  ∃ w1 w2,
    CanvasEdge_init c src src_pos dst_pos = Ok tt w1
    ∧ CanvasEdge_delete w1 = Ok tt w2
    ∧ items (canvas w2) = items c
    ∧ stacking (canvas w2) = stacking c
    ∧ nodes (canvas w2) = nodes c
    ∧ wireless_network (canvas w2) = wireless_network c.
Proof.
  intros Hfree Hstack. eexists _, _.
  split; [apply CanvasEdge_init_spec |].
  split; [apply CanvasEdge_delete_spec |].
  cbn. split; [| split; [| split; reflexivity]].
  - rewrite delete_insert_eq. apply delete_id. exact Hfree.
  - rewrite filter_app, filter_cons_False, filter_nil, app_nil_r
      by (intros H; apply H; reflexivity).
    apply filter_ne_notin. exact Hstack.
Qed.

End CompletionProperties.

(** ** Antennas, wireless edges, and labels that follow the line *)

Section AntennaProperties.
Context {NodeType : Type}.
Variable is_wireless_node : NodeType -> bool.
Implicit Types (e : edge) (c : @CanvasGraph NodeType) (it : item).
Implicit Types (nodes_map : gmap Z (@CanvasNode NodeType)).

Lemma add_antenna_iter (n : nat) (x : @CanvasNode NodeType) :
  antennas (Nat.iter n add_antenna x) = (antennas x + n)%nat
  ∧ core_node_type (Nat.iter n add_antenna x) = core_node_type x.
Proof.
  induction n as [| n [IHa IHt]]; [cbn; split; [lia | reflexivity] |].
  rewrite Nat.iter_succ. cbn [antennas core_node_type add_antenna].
  rewrite IHa, IHt. split; [lia | reflexivity].
Qed.

Lemma alter_iter_lookup (n : nat) (t : Z) nodes_map :
  Nat.iter n (alter add_antenna t) nodes_map !! t
  = Nat.iter n add_antenna <$> nodes_map !! t.
Proof.
  induction n as [| n IH].
  - cbn. destruct (nodes_map !! t); reflexivity.
  - rewrite Nat.iter_succ, lookup_alter_eq, IH.
    destruct (nodes_map !! t); reflexivity.
Qed.

Lemma alter_add_antenna_keeps_type (t k : Z) nodes_map x :
  nodes_map !! k = Some x ->
  ∃ x', alter add_antenna t nodes_map !! k = Some x'
        ∧ core_node_type x' = core_node_type x.
Proof.
  intros Hk. destruct (decide (t = k)) as [-> | Hne].
  - rewrite lookup_alter_eq, Hk. eauto.
  - rewrite lookup_alter_ne by exact Hne. eauto.
Qed.

Lemma CanvasEdge_check_wireless_iterate (ws wd : bool) e (l d : Z) (n : nat) :
  edge_id e = Some l -> dst e = Some d -> ws || wd = true ->
  ∀ c ns nd,
    nodes c !! src e = Some ns -> nodes c !! d = Some nd ->
    is_wireless_node (core_node_type ns) = ws ->
    is_wireless_node (core_node_type nd) = wd ->
    ∃ cn,
      iterate n (CanvasEdge_check_wireless is_wireless_node) (World e c)
      = Ok tt (World e cn)
      ∧ nodes cn
        = Nat.iter n (alter add_antenna (if ws && negb wd then d else src e))
            (nodes c).
Proof.
  intros Hid Hd Hw. induction n as [| n IH]; intros c ns nd Hs Hnd Hws Hwd.
  - exists c. split; reflexivity.
  - cbn [iterate]. unfold bind.
    rewrite (CanvasEdge_check_wireless_spec is_wireless_node e c l d ns nd
               Hid Hs Hd Hnd).
    rewrite Hws, Hwd, Hw.
    set (c1 := with_nodes _ _).
    destruct (alter_add_antenna_keeps_type
                (if ws && negb wd then d else src e) (src e) (nodes c) ns Hs)
      as (ns' & Hs' & Hts).
    destruct (alter_add_antenna_keeps_type
                (if ws && negb wd then d else src e) d (nodes c) nd Hnd)
      as (nd' & Hnd' & Htd).
    destruct (IH c1 ns' nd' Hs' Hnd') as (cn & Hrun & Hnodes).
    { rewrite Hts. exact Hws. }
    { rewrite Htd. exact Hwd. }
    exists cn. split; [exact Hrun |].
    rewrite Hnodes. rewrite Nat.iter_succ_r. reflexivity.
Qed.

(** X27: [check_wireless] requests an antenna on every call.  On an edge with
    at least one wireless end, [n] calls in a row return normally and leave
    the node that gets the antenna (the destination node when only the
    source is wireless, the source node otherwise) with [n] more antennas
    than before. *)
Theorem CanvasEdge_check_wireless_requests_antenna_each_time
    e c (l d : Z) ns nd (n : nat) :
  edge_id e = Some l ->
  nodes c !! src e = Some ns ->
  dst e = Some d ->
  nodes c !! d = Some nd ->
  is_wireless_node (core_node_type ns) || is_wireless_node (core_node_type nd)
  = true ->
  let only_src :=
    is_wireless_node (core_node_type ns)
    && negb (is_wireless_node (core_node_type nd)) in
  ∃ cn,
    iterate n (CanvasEdge_check_wireless is_wireless_node) (World e c)
    = Ok tt (World e cn)
    ∧ antennas <$> nodes cn !! (if only_src then d else src e)
      = Some (antennas (if only_src then nd else ns) + n)%nat.
Proof.
  intros Hid Hs Hd Hnd Hw only_src.
  destruct (CanvasEdge_check_wireless_iterate _ _ e l d n Hid Hd Hw
              c ns nd Hs Hnd eq_refl eq_refl) as (cn & Hrun & Hnodes).
  exists cn. split; [exact Hrun |].
  rewrite Hnodes, alter_iter_lookup. fold only_src.
  destruct only_src; [rewrite Hnd | rewrite Hs]; cbn;
    rewrite (proj1 (add_antenna_iter n _)); reflexivity.
Qed.
End AntennaProperties.

Section WirelessEdgeAndLabels.
Context {NodeType : Type}.
Implicit Types (e : edge) (c : @CanvasGraph NodeType) (it : item).

Lemma CanvasWirelessEdge_init_spec
    c (s d : Z) (src_pos dst_pos : R * R) (tok : list Z) :
  CanvasWirelessEdge_init c s d src_pos dst_pos tok
  = Ok tt
      (World
         {| edge_id := Some (next_id c); src := s; dst := Some d; arc := 0;
            token := Some tok; color := WIRELESS_COLOR;
            width := WIRELESS_WIDTH; text_src := None; text_dst := None;
            text_middle := None; link := None |}
         (with_next_id (next_id c + 1)%Z
            (with_stacking (fun st => (st ++ [next_id c])%list)
               (with_items
                  (insert (next_id c)
                     (Item TAG_WIRELESS_EDGE
                        (curve_points 0 src_pos dst_pos) "" WIRELESS_COLOR
                        (WIRELESS_WIDTH * app_scale c) false))
                  c)))).
Proof. reflexivity. Qed.

(** X28: the constructor of a wireless edge never raises.  It keeps the token
    it is given as it is, and draws the line as a new item with the wireless
    tag, straight between the two positions, in the wireless colour and the
    wireless width scaled by the application scale; no item that was on the
    canvas is changed. *)
Theorem CanvasWirelessEdge_init_draws_wireless_line
    c (s d : Z) (sx sy dx dy : R) (tok : list Z) :
  ∃ e' c' line,
    CanvasWirelessEdge_init c s d (sx, sy) (dx, dy) tok = Ok tt (World e' c')
    ∧ src e' = s ∧ dst e' = Some d ∧ token e' = Some tok
    ∧ edge_id e' = Some (next_id c)
    ∧ items c' !! next_id c = Some line
    ∧ item_tag line = TAG_WIRELESS_EDGE
    ∧ item_coords line = [sx; sy; (sx + dx) / 2; (sy + dy) / 2; dx; dy]
    ∧ item_fill line = WIRELESS_COLOR
    ∧ item_width line = WIRELESS_WIDTH * app_scale c
    ∧ ∀ k, k ≠ next_id c -> items c' !! k = items c !! k.
Proof.
  eexists _, _, _.
  split; [apply CanvasWirelessEdge_init_spec |].
  do 4 (split; [reflexivity |]).
  cbn [items with_items with_stacking with_next_id].
  split; [apply lookup_insert_eq |].
  split; [reflexivity |].
  split.
  { cbn [item_coords]. unfold curve_points.
    rewrite _get_midpoint_arc_0. reflexivity. }
  do 2 (split; [reflexivity |]).
  intros k Hk. apply lookup_insert_ne. congruence.
Qed.

(** X29: the endpoint labels follow the line.  On an edge with its two labels
    drawn and no throughput label, [CanvasEdge.move_node] returns normally;
    afterwards the line runs between the moved ends through their control
    point, the source label is three tenths of the way from the source end
    to the destination end and the destination label three tenths of the way
    back from the destination end. *)
Theorem CanvasEdge_move_node_places_endpoint_labels
    e c (node_id : Z) (x y : R) (l a b : Z) it x1 y1 mx my x2 y2 :
  edge_id e = Some l -> text_src e = Some a -> text_dst e = Some b ->
  text_middle e = None ->
  l ≠ a -> l ≠ b -> a ≠ b ->
  items c !! l = Some it ->
  item_coords it = [x1; y1; mx; my; x2; y2] ->
  is_Some (items c !! a) -> is_Some (items c !! b) ->
  let p := (moved_ends e node_id x y x1 y1 x2 y2).1 in
  let q := (moved_ends e node_id x y x1 y1 x2 y2).2 in
  ∃ c',
    CanvasEdge_move_node node_id x y (World e c) = Ok tt (World e c')
    ∧ item_coords <$> items c' !! l = Some (curve_points (arc e) p q)
    ∧ item_coords <$> items c' !! a
      = Some [p.1 + 3 / 10 * (q.1 - p.1); p.2 + 3 / 10 * (q.2 - p.2)]
    ∧ item_coords <$> items c' !! b
      = Some [q.1 - 3 / 10 * (q.1 - p.1); q.2 - 3 / 10 * (q.2 - p.2)].
Proof.
  intros Hid Ha Hb Hm Hla Hlb Hab Hit Hcs [ia Hia] [ib Hib] p q.
  pose proof (CanvasEdge_move_node_spec e c node_id x y l a b it _ _ _ _ _ _
                Hid Ha Hb Hla Hlb Hit Hcs) as Hrun.
  subst p q.
  destruct (moved_ends e node_id x y x1 y1 x2 y2) as [[px py] [qx qy]].
  rewrite Hm in Hrun. cbn [fst snd] in *.
  assert (HTD : TEXT_DISTANCE = 3 / 10) by (unfold TEXT_DISTANCE; lra).
  rewrite HTD in Hrun.
  eexists. split; [exact Hrun |].
  unfold labels_placed. cbn [items with_items].
  split; [| split].
  - rewrite !lookup_alter_ne by congruence.
    rewrite lookup_alter_eq, Hit. reflexivity.
  - rewrite lookup_alter_ne by congruence.
    rewrite lookup_alter_eq, lookup_alter_ne by congruence.
    rewrite Hia. reflexivity.
  - rewrite lookup_alter_eq, !lookup_alter_ne by congruence.
    rewrite Hib. reflexivity.
Qed.

(** X30: the control point lies at distance [|arc|] from the midpoint of the
    two positions, whatever the positions. *)
Theorem _get_midpoint_distance_from_midpoint
    (arc src_x src_y dst_x dst_y : R) :
  let mp := _get_midpoint arc (src_x, src_y) (dst_x, dst_y) in
  (mp.1 - (src_x + dst_x) / 2)² + (mp.2 - (src_y + dst_y) / 2)² = arc².
Proof.
  cbn. set (t := atan2 _ _).
  replace (_ + _) with (arc² * ((sin t)² + (cos t)²))
    by (unfold Rsqr; ring).
  rewrite sin2_cos2. ring.
Qed.
End WirelessEdgeAndLabels.

(** ** The further properties at work on the small topology *)

Local Open Scope R_scope.

Ltac in_list := apply (bool_decide_unpack _); vm_compute; exact I.

Lemma format_3f_nearest_thousandth_witness :
  format_3f (123454 / 10000)
  = (pretty (12345 / 1000)%Z ++ "." ++ pad3 (12345 mod 1000)%Z)%string.
Proof.
  apply (format_3f_nearest_thousandth (123454 / 10000) 12345).
  - lra.
  - apply Rabs_def1; lra.
Defined.

Lemma format_3f_tie_to_even_witness :
  format_3f (625 / 10000)
  = let m := if Z.even 62 then 62%Z else (62 + 1)%Z in
    (pretty (m / 1000)%Z ++ "." ++ pad3 (m mod 1000)%Z)%string.
Proof.
  apply (format_3f_tie_to_even (625 / 10000) 62).
  - lra.
  - lra.
Defined.


Lemma Edge_move_src_dst_commute_witness :
  ∃ c',
    bind (Edge_move_src 1 1) (fun _ => Edge_move_dst 7 7)
      (World demo_edge demo_canvas)
    = Ok tt (World demo_edge c')
    ∧ bind (Edge_move_dst 7 7) (fun _ => Edge_move_src 1 1)
        (World demo_edge demo_canvas)
      = Ok tt (World demo_edge c').
Proof.
  eexists.
  eapply (Edge_move_src_dst_commute demo_edge demo_canvas 10 _
            0 0 _ _ 10 0 1 1 7 7).
  - reflexivity.
  - reflexivity.
  - reflexivity.
Defined.

Lemma Edge_move_node_source_handle_moves_src_witness :
  ∃ c',
    Edge_move_node 1 7 7 (World demo_edge demo_canvas)
    = Ok tt (World demo_edge c')
    ∧ item_coords <$> item_of (edge_id demo_edge) c'
      = Some (curve_points (arc demo_edge) (7, 7) (10, 0)).
Proof.
  eapply (Edge_move_node_source_handle_moves_src demo_edge demo_canvas
            1 7 7 10 _ 0 0 _ _ 10 0).
  - vm_compute. reflexivity.
  - reflexivity.
  - reflexivity.
  - reflexivity.
Defined.

Lemma Edge_move_node_after_delete_raises_witness :
  ∃ c',
    CanvasEdge_delete (World demo_edge demo_canvas)
    = Ok tt (World demo_edge c')
    ∧ Edge_move_node 2 7 7 (World demo_edge c')
      = Raise ValueError (World demo_edge c').
Proof.
  apply (Edge_move_node_after_delete_raises demo_edge demo_canvas 2 7 7 10).
  vm_compute. reflexivity.
Defined.

Lemma CanvasEdge_move_node_before_labels_raises_witness :
  ∃ c',
    CanvasEdge_move_node 2 7 7 (World demo_edge demo_canvas)
    = Raise TclError (World demo_edge c')
    ∧ item_coords <$> items c' !! 10%Z
      = Some (curve_points (arc demo_edge)
                (moved_ends demo_edge 2 7 7 0 0 10 0).1
                (moved_ends demo_edge 2 7 7 0 0 10 0).2).
Proof.
  eapply (CanvasEdge_move_node_before_labels_raises demo_edge demo_canvas
            2 7 7 10 _ 0 0 _ _ 10 0).
  - reflexivity.
  - vm_compute. reflexivity.
  - reflexivity.
  - reflexivity.
Defined.

Lemma CanvasEdge_set_link_draws_labels_witness :
  ∃ e' c',
    CanvasEdge_set_link demo_link (World demo_edge demo_canvas)
    = Ok tt (World e' c')
    ∧ text_src e' = Some (next_id demo_canvas)
    ∧ text_dst e' = Some (next_id demo_canvas + 1)%Z
    ∧ items c' !! next_id demo_canvas
      = Some (text_item TAG_LINK_INFO
                (0 + 3 / 10 * (10 - 0)) (0 + 3 / 10 * (0 - 0))
                (interface_label <$> interface_one demo_link)).
Proof.
  destruct (CanvasEdge_set_link_draws_labels demo_edge demo_canvas
              demo_link 10 _ 0 0 _ _ 10 0 eq_refl eq_refl eq_refl eq_refl)
    as (e' & c' & Hrun & _ & Hsrc & Hdst & Hone & _).
  exists e', c'. exact (conj Hrun (conj Hsrc (conj Hdst Hone))).
Defined.

Lemma CanvasEdge_set_link_twice_orphans_labels_witness :
  ∃ w1 w2 w3,
    CanvasEdge_set_link demo_link (World demo_edge demo_canvas) = Ok tt w1
    ∧ CanvasEdge_set_link demo_link w1 = Ok tt w2
    ∧ CanvasEdge_delete w2 = Ok tt w3
    ∧ items (canvas w3) !! 10%Z = None
    ∧ is_Some (items (canvas w3) !! next_id demo_canvas)
    ∧ is_Some (items (canvas w3) !! (next_id demo_canvas + 1)%Z).
Proof.
  eapply (CanvasEdge_set_link_twice_orphans_labels demo_edge demo_canvas
            demo_link demo_link 10 _ 0 0 _ _ 10 0).
  - reflexivity.
  - vm_compute. reflexivity.
  - reflexivity.
  - reflexivity.
  - vm_compute. reflexivity.
Defined.

Lemma CanvasEdge_redraw_changes_texts_only_witness :
  ∃ c',
    CanvasEdge_redraw (World demo_linked_edge demo_linked_canvas)
    = Ok tt (World demo_linked_edge c')
    ∧ item_text <$> items c' !! 11%Z = Some "10.0.0.1/24"%string
    ∧ item_text <$> items c' !! 12%Z = Some "10.0.0.2/24"%string.
Proof.
  destruct (CanvasEdge_redraw_changes_texts_only demo_linked_edge
              demo_linked_canvas demo_link 11 12 _ _
              eq_refl eq_refl eq_refl ltac:(discriminate) eq_refl eq_refl)
    as (c' & Hrun & Ha & Hb & _).
  exists c'. split; [exact Hrun |].
  rewrite Ha, Hb. split; vm_compute; reflexivity.
Defined.

Lemma CanvasEdge_labels_need_link_witness :
  CanvasEdge_draw_labels (World demo_edge demo_canvas)
  = Raise AttributeError (World demo_edge demo_canvas)
  ∧ CanvasEdge_redraw (World demo_edge demo_canvas)
    = Raise AttributeError (World demo_edge demo_canvas).
Proof.
  eapply (CanvasEdge_labels_need_link demo_edge demo_canvas 10 _
            0 0 _ _ 10 0).
  - vm_compute. reflexivity.
  - reflexivity.
  - reflexivity.
  - reflexivity.
Defined.


Lemma CanvasEdge_reset_restores_default_style_witness :
  ∃ c',
    CanvasEdge_reset (World demo_labelled_edge demo_labelled_canvas)
    = Ok tt (World (set_text_middle None demo_labelled_edge) c')
    ∧ item_of (text_middle demo_labelled_edge) c' = None
    ∧ item_fill <$> items c' !! 10%Z = Some EDGE_COLOR.
Proof.
  destruct (CanvasEdge_reset_restores_default_style demo_labelled_edge
              demo_labelled_canvas 10 _ eq_refl eq_refl
              ltac:(vm_compute; discriminate))
    as (c' & Hrun & Hgone & Hline & _).
  exists c'. split; [exact Hrun |]. split; [exact Hgone |].
  rewrite Hline. reflexivity.
Defined.

Lemma CanvasEdge_complete_records_destination_witness :
  ∃ e' c',
    CanvasEdge_complete demo_is_wireless 2
      (World (demo_pending_edge 1 (0, 0)) (demo_pending_canvas 1 (0, 0)))
    = Ok tt (World e' c')
    ∧ dst e' = Some 2%Z
    ∧ token e' = Some [Z.min 1 2; Z.max 1 2]
    ∧ item_coords <$> items c' !! 10%Z
      = Some (curve_points 0 (0, 0) (10, 0)).
Proof.
  destruct (CanvasEdge_complete_records_destination demo_is_wireless
              (demo_pending_edge 1 (0, 0)) (demo_pending_canvas 1 (0, 0))
              10 _ _ _ _ _ _ _ 2 _ _ _ (demo_node false) (demo_node false)
              eq_refl eq_refl eq_refl eq_refl eq_refl eq_refl eq_refl)
    as (e' & c' & Hrun & _ & Hdst & Htok & Hline).
  exists e', c'. exact (conj Hrun (conj Hdst (conj Htok Hline))).
Defined.

Lemma CanvasEdge_complete_raises_endpoints_witness :
  ∃ e' c' below,
    CanvasEdge_complete demo_is_wireless 2
      (World (demo_pending_edge 1 (0, 0)) (demo_pending_canvas 1 (0, 0)))
    = Ok tt (World e' c')
    ∧ stacking c' = (below ++ [1%Z; 2%Z])%list
    ∧ 10%Z ∈ below.
Proof.
  eapply (CanvasEdge_complete_raises_endpoints demo_is_wireless
            (demo_pending_edge 1 (0, 0)) (demo_pending_canvas 1 (0, 0))
            10 _ _ _ _ _ _ _ 2 _ _ _ (demo_node false) (demo_node false)).
  - reflexivity.
  - reflexivity.
  - reflexivity.
  - reflexivity.
  - reflexivity.
  - reflexivity.
  - reflexivity.
  - in_list.
  - in_list.
  - in_list.
  - vm_compute. discriminate.
  - vm_compute. discriminate.
Defined.

Lemma CanvasEdge_complete_unknown_item_raises_witness :
  CanvasEdge_complete demo_is_wireless 99
    (World (demo_pending_edge 1 (0, 0)) (demo_pending_canvas 1 (0, 0)))
  = Raise ValueError
      (World (set_token (Some (create_edge_token 1 99))
                (set_dst (Some 99%Z) (demo_pending_edge 1 (0, 0))))
         (demo_pending_canvas 1 (0, 0))).
Proof.
  apply (CanvasEdge_complete_unknown_item_raises demo_is_wireless
           (demo_pending_edge 1 (0, 0)) (demo_pending_canvas 1 (0, 0)) 99).
  vm_compute. reflexivity.
Defined.

Lemma CanvasEdge_complete_unknown_node_raises_witness :
  ∃ c',
    CanvasEdge_complete demo_is_wireless 11
      (World demo_linked_edge demo_linked_canvas)
    = Raise KeyError
        (World (set_token (Some (create_edge_token (src demo_linked_edge) 11))
                  (set_dst (Some 11%Z) demo_linked_edge)) c').
Proof.
  eexists.
  eapply (CanvasEdge_complete_unknown_node_raises demo_is_wireless
            demo_linked_edge demo_linked_canvas 10 _ 0 0 _ _ 10 0 11).
  - reflexivity.
  - reflexivity.
  - reflexivity.
  - reflexivity.
  - reflexivity.
  - right. vm_compute. reflexivity.
Defined.

Lemma CanvasEdge_init_then_delete_restores_witness :
  ∃ w1 w2,
    CanvasEdge_init demo_canvas0 1 (0, 0) (3, 4) = Ok tt w1
    ∧ CanvasEdge_delete w1 = Ok tt w2
    ∧ items (canvas w2) = items demo_canvas0
    ∧ stacking (canvas w2) = stacking demo_canvas0
    ∧ nodes (canvas w2) = nodes demo_canvas0
    ∧ wireless_network (canvas w2) = wireless_network demo_canvas0.
Proof.
  apply (CanvasEdge_init_then_delete_restores demo_canvas0 1 (0, 0) (3, 4)).
  - vm_compute. reflexivity.
  - in_list.
Defined.

Lemma CanvasEdge_check_wireless_requests_antenna_each_time_witness :
  ∃ cn,
    iterate 3 (CanvasEdge_check_wireless demo_is_wireless)
      (World demo_wlan_edge demo_wlan_canvas)
    = Ok tt (World demo_wlan_edge cn)
    ∧ antennas <$> nodes cn !! 4%Z = Some (1 + 3)%nat.
Proof.
  exact (CanvasEdge_check_wireless_requests_antenna_each_time
           demo_is_wireless demo_wlan_edge demo_wlan_canvas 10 4
           (demo_node true) (add_antenna (demo_node false)) 3
           eq_refl eq_refl eq_refl eq_refl eq_refl).
Defined.

Lemma CanvasEdge_move_node_places_endpoint_labels_witness :
  ∃ c',
    CanvasEdge_move_node 2 20 0 (World demo_linked_edge demo_linked_canvas)
    = Ok tt (World demo_linked_edge c')
    ∧ item_coords <$> items c' !! 11%Z
      = Some [0 + 3 / 10 * (20 - 0); 0 + 3 / 10 * (0 - 0)]
    ∧ item_coords <$> items c' !! 12%Z
      = Some [20 - 3 / 10 * (20 - 0); 0 - 3 / 10 * (0 - 0)].
Proof.
  destruct (CanvasEdge_move_node_places_endpoint_labels demo_linked_edge
              demo_linked_canvas 2 20 0 10 11 12 _ 0 0 _ _ 10 0
              eq_refl eq_refl eq_refl eq_refl
              ltac:(discriminate) ltac:(discriminate) ltac:(discriminate)
              eq_refl eq_refl
              ltac:(eexists; reflexivity) ltac:(eexists; reflexivity))
    as (c' & Hrun & _ & Ha & Hb).
  exists c'. exact (conj Hrun (conj Ha Hb)).
Defined.
